(** * Shallow embedding of [EnhancedDataMapper] (src/basic_info.py)

    The mapper holds an ordered mapping configuration (a Python dict
    from target field to a rule record), the loaded source tables (a
    dict from sheet name to DataFrame) and the lookup tables.  Python
    exceptions are modelled by the result type [res]; DataFrames by
    their column list and their rows. *)

From Stdlib Require Import ZArith String Ascii List Bool Lia.
From Stdlib Require Import Numbers.DecimalString.
Import ListNotations.
Open Scope string_scope.

(** ** Cell values *)

(** A scalar held in a DataFrame cell or a Python variable: [None],
    float NaN (pandas' marker of an empty cell), a string, or an integer
    (an int64 column). *)
Inductive Value : Type :=
| VNone
| VNaN
| VStr (s : string)
| VNum (z : Z).

(** [str(v)] *)
Definition py_str (v : Value) : string :=
  match v with
  | VNone => "None"
  | VNaN => "nan"
  | VStr s => s
  | VNum z => NilEmpty.string_of_int (Z.to_int z)
  end.

(** [pd.isna(v)] *)
Definition isna (v : Value) : bool :=
  match v with VNone | VNaN => true | _ => false end.

(** Python truthiness, as in [x if default_value else None]: NaN is
    truthy. *)
Definition truthy (v : Value) : bool :=
  match v with
  | VNone => false
  | VNaN => true
  | VStr s => negb (String.eqb s "")
  | VNum z => negb (Z.eqb z 0)
  end.

(** [v == 'lit'] and [v == n] on scalars (element-wise on a column). *)
Definition eq_str (v : Value) (lit : string) : bool :=
  match v with VStr s => String.eqb s lit | _ => false end.

Definition eq_num (v : Value) (n : Z) : bool :=
  match v with VNum z => Z.eqb z n | _ => false end.

(** ** Python exceptions *)

Inductive exn : Type :=
| KeyError (key : string)
| ValueError (msg : string)
| AttributeError (msg : string).

Inductive res (A : Type) : Type :=
| Ok (a : A)
| Err (e : exn).
Arguments Ok {A} a.
Arguments Err {A} e.

Definition bind {A B} (m : res A) (k : A -> res B) : res B :=
  match m with Ok a => k a | Err e => Err e end.

Notation "'let*' x := m 'in' k" := (bind m (fun x => k))
  (at level 200, x name, m at level 100, k at level 200).

(** Running a fallible function over a list, stopping at the first
    exception (a Python [for] loop). *)
Fixpoint map_res {A B} (f : A -> res B) (l : list A) : res (list B) :=
  match l with
  | [] => Ok []
  | x :: t => let* y := f x in let* ys := map_res f t in Ok (y :: ys)
  end.

(** ** Python string operations (ASCII) *)

(** [sub in s] *)
Fixpoint contains (sub s : string) : bool :=
  prefix sub s ||
  match s with
  | EmptyString => false
  | String _ s' => contains sub s'
  end.

Definition lower_ascii (c : ascii) : ascii :=
  let n := nat_of_ascii c in
  if ((65 <=? n) && (n <=? 90))%nat then ascii_of_nat (n + 32)%nat else c.

(** [s.lower()] *)
Fixpoint lower (s : string) : string :=
  match s with
  | EmptyString => EmptyString
  | String c s' => String (lower_ascii c) (lower s')
  end.

(** [c.isspace()] on ASCII: \t \n \v \f \r, the separators 28-31, space. *)
Definition is_space (c : ascii) : bool :=
  let n := nat_of_ascii c in
  (((9 <=? n) && (n <=? 13)) || ((28 <=? n) && (n <=? 32)))%nat.

Fixpoint lstrip (s : string) : string :=
  match s with
  | EmptyString => EmptyString
  | String c s' => if is_space c then lstrip s' else s
  end.

Fixpoint rev_str (s : string) : string :=
  match s with
  | EmptyString => EmptyString
  | String c s' => rev_str s' ++ String c EmptyString
  end.

(** [s.strip()] *)
Definition strip (s : string) : string := rev_str (lstrip (rev_str (lstrip s))).

Definition is_digit (c : ascii) : bool :=
  let n := nat_of_ascii c in ((48 <=? n) && (n <=? 57))%nat.

Fixpoint all_digits (s : string) : bool :=
  match s with
  | EmptyString => true
  | String c s' => is_digit c && all_digits s'
  end.

(** [s.isdigit()]: non-empty and every character a digit. *)
Definition isdigit (s : string) : bool :=
  negb (String.eqb s "") && all_digits s.

(** [v.lower()] raises when [v] is not a string (NaN, None, int). *)
Definition as_str (v : Value) : res string :=
  match v with
  | VStr s => Ok s
  | _ => Err (AttributeError "object has no attribute 'lower'")
  end.

(** ** [_format_date] (lines 197-212) *)
Definition format_date (date_value : Value) : Value :=
  if isna date_value then VNone
  else
    let date_str := py_str date_value in
    if (String.length date_str =? 8)%nat && isdigit date_str then
      VStr (substring 0 4 date_str ++ "-" ++ substring 4 2 date_str ++ "-"
            ++ substring 6 2 date_str)
    else VStr date_str.

(** ** DataFrames *)

(** A row maps column names to cells; a table has an ordered column list
    and its rows.  A column missing from a row reads as NaN, as pandas
    fills it when building the frame. *)
Definition row := list (string * Value).

Record table := mk_table { cols : list string; rows : list row }.

Definition mem (x : string) (l : list string) : bool :=
  existsb (String.eqb x) l.

Fixpoint cell (r : row) (c : string) : Value :=
  match r with
  | [] => VNaN
  | (k, v) :: r' => if String.eqb k c then v else cell r' c
  end.

(** A row taken out by [.iloc[i]]: a Series indexed by the columns. *)
Record series := mk_series { s_index : list string; s_row : row }.

(** [row.get(key, default)]: a key that is not a column label (a
    non-string key such as NaN included) gives the default. *)
Definition series_get (s : series) (key : Value) (default : Value) : Value :=
  match key with
  | VStr k => if mem k (s_index s) then cell (s_row s) k else default
  | _ => default
  end.

(** [df[df[c] <op> ...]]: boolean selection on one column; the column
    access raises [KeyError] when the column is absent. *)
Definition select (t : table) (c : string) (p : Value -> bool) : res table :=
  if mem c (cols t)
  then Ok (mk_table (cols t) (filter (fun r => p (cell r c)) (rows t)))
  else Err (KeyError c).

(** [df[(df[c1] <op> ...) | (df[c2] <op> ...)]] *)
Definition select_or (t : table) (c1 : string) (p1 : Value -> bool)
    (c2 : string) (p2 : Value -> bool) : res table :=
  if mem c1 (cols t) then
    if mem c2 (cols t)
    then Ok (mk_table (cols t)
               (filter (fun r => p1 (cell r c1) || p2 (cell r c2)) (rows t)))
    else Err (KeyError c2)
  else Err (KeyError c1).

(** [df[(df[c1] <op> ...) & (df[c2] <op> ...)]] *)
Definition select_and (t : table) (c1 : string) (p1 : Value -> bool)
    (c2 : string) (p2 : Value -> bool) : res table :=
  if mem c1 (cols t) then
    if mem c2 (cols t)
    then Ok (mk_table (cols t)
               (filter (fun r => p1 (cell r c1) && p2 (cell r c2)) (rows t)))
    else Err (KeyError c2)
  else Err (KeyError c1).

(** [df[c]] *)
Definition column (t : table) (c : string) : res (list Value) :=
  if mem c (cols t) then Ok (map (fun r => cell r c) (rows t))
  else Err (KeyError c).

(** [.iloc[0]] of a non-empty selection, [None] when [.empty]. *)
Definition first_row (t : table) : option series :=
  match rows t with
  | [] => None
  | r :: _ => Some (mk_series (cols t) r)
  end.

(** [key in d] / [d[key]] on a dict of tables. *)
Fixpoint find_table (d : list (string * table)) (name : string) : option table :=
  match d with
  | [] => None
  | (k, t) :: d' => if String.eqb k name then Some t else find_table d' name
  end.

(** ** Mapping configuration (lines 19-33) *)

Record config := mk_config {
  target_name : Value;
  source_table : Value;
  source_field : Value;
  technical_field : Value;
  notes : Value;
  default_value : Value }.

(** [d[k] = v] on an insertion-ordered dict: an existing key keeps its
    position and takes the new value; a new key goes last. *)
Fixpoint dict_set {A} (k : string) (v : A) (d : list (string * A))
    : list (string * A) :=
  match d with
  | [] => [(k, v)]
  | (k', v') :: d' =>
      if String.eqb k' k then (k, v) :: d' else (k', v') :: dict_set k v d'
  end.

Definition row_config (s : series) : config :=
  mk_config (series_get s (VStr "Target Column Name") (VStr ""))
            (series_get s (VStr "Source Table (ECC)") (VStr ""))
            (series_get s (VStr "Source Field Name (ECC)") (VStr ""))
            (series_get s (VStr "Technical Field (ECC)") (VStr ""))
            (series_get s (VStr "Notes / Transformation") (VStr ""))
            (series_get s (VStr "Default Value") (VStr "")).

(** One iteration of the loop: [pd.notna(target_field) and
    target_field.strip()]; [.strip()] raises on a non-string. *)
Definition load_row (cs : list string) (acc : list (string * config)) (r : row)
    : res (list (string * config)) :=
  let s := mk_series cs r in
  let target_field := series_get s (VStr "Target Column (SuccessFactors)") (VStr "") in
  if isna target_field then Ok acc
  else match target_field with
       | VStr tf =>
           if String.eqb (strip tf) "" then Ok acc
           else Ok (dict_set tf (row_config s) acc)
       | _ => Err (AttributeError "object has no attribute 'strip'")
       end.

Fixpoint load_rows (cs : list string) (acc : list (string * config)) (rs : list row)
    : res (list (string * config)) :=
  match rs with
  | [] => Ok acc
  | r :: rs' => let* acc' := load_row cs acc r in load_rows cs acc' rs'
  end.

Definition load_mapping_config (mapping_df : table) : res (list (string * config)) :=
  load_rows (cols mapping_df) [] (rows mapping_df).

(** ** The mapper object *)

Record mapper := mk_mapper {
  mapping_config : option (list (string * config));
  source_data : list (string * table);
  lookup_tables : list (string * table) }.

Definition gender_map (k : string) : option string :=
  if String.eqb k "1" then Some "Male"
  else if String.eqb k "2" then Some "Female"
  else if String.eqb k "M" then Some "Male"
  else if String.eqb k "F" then Some "Female"
  else None.

Definition marital_map (k : string) : option string :=
  if String.eqb k "0" then Some "Single"
  else if String.eqb k "1" then Some "Married"
  else if String.eqb k "2" then Some "Divorced"
  else if String.eqb k "3" then Some "Widowed"
  else if String.eqb k "4" then Some "Separated"
  else None.

(** [m.get(str(value), value)] *)
Definition map_get (m : string -> option string) (value : Value) : Value :=
  match m (py_str value) with Some s => VStr s | None => value end.

(** [pd.isna(value) or value == ''] *)
Definition null_or_empty (value : Value) : bool :=
  isna value || eq_str value "".

(** The username branch (lines 179-188): [Some] result when a LOGIN row
    of the entity is found in PA0105. *)
Definition login_username (sd : list (string * table)) (value : Value)
    (person_row : series) : res (option Value) :=
  match find_table sd "PA0105_Communication" with
  | None => Ok None
  | Some comm_df =>
      let person_id := py_str (series_get person_row (VStr "PERNR") (VStr "")) in
      let* login_data := select_and comm_df "PERNR"
                           (fun v => String.eqb (py_str v) person_id)
                           "COMM_TYPE" (fun v => eq_str v "LOGIN") in
      match first_row login_data with
      | Some r => Ok (Some (series_get r (VStr "USRID") value))
      | None => Ok None
      end
  end.

(** ** [_apply_transformations] (lines 150-195).  The lookup-table branch
    binds a local it never uses, so it has no effect and is omitted. *)
Definition apply_transformations (sd : list (string * table)) (value : Value)
    (field_name : Value) (notes : Value) (person_row : series) : res Value :=
  if null_or_empty value then Ok VNone
  else
    let* fn := as_str field_name in
    if contains "gender" (lower fn) || contains "GESCH" fn
    then Ok (map_get gender_map value)
    else
      let* nt := as_str notes in
      if contains "date" (lower nt) || contains "GBDAT" fn || contains "BEGDA" fn
      then Ok (format_date value)
      else if contains "marital" (lower nt) || contains "FAMST" fn
      then Ok (map_get marital_map value)
      else if contains "concatenate VORNA + NACHN" nt
      then
        let first_name := series_get person_row (VStr "VORNA") (VStr "") in
        let last_name := series_get person_row (VStr "NACHN") (VStr "") in
        Ok (VStr (strip (py_str first_name ++ " " ++ py_str last_name)))
      else
        let* login :=
          if contains "login username" (lower nt)
          then login_username sd value person_row
          else Ok None in
        match login with
        | Some v => Ok v
        | None => Ok value
        end.

(** Selecting the entity's rows: [df[df['PERNR'].astype(str) == str(person_id)]]. *)
Definition person_rows (df : table) (person_id : string) : res table :=
  select df "PERNR" (fun v => String.eqb (py_str v) person_id).

(** ** [_get_pa0002_value] (lines 67-84) *)
Definition get_pa0002_value (sd : list (string * table)) (person_id : string)
    (technical_field notes default_value : Value) : res Value :=
  match find_table sd "PA0002_Personal Data" with
  | None => Ok default_value
  | Some df =>
      let* person_row := person_rows df person_id in
      match first_row person_row with
      | None => Ok default_value
      | Some r =>
          let raw_value := series_get r technical_field default_value in
          apply_transformations sd raw_value technical_field notes r
      end
  end.

(** ** [_get_pa0105_value] (lines 86-114) *)
Definition get_pa0105_value (sd : list (string * table)) (person_id : string)
    (notes default_value : Value) : res Value :=
  match find_table sd "PA0105_Communication" with
  | None => Ok default_value
  | Some df =>
      let* person_data := person_rows df person_id in
      match rows person_data with
      | [] => Ok default_value
      | _ =>
          let* nt := as_str notes in
          if contains "email" (lower nt) || contains "SUBTY=0010" nt then
            let* email_rows := select_or person_data "COMM_TYPE"
                                 (fun v => eq_str v "EMAIL") "SUBTY"
                                 (fun v => eq_num v 10) in
            match first_row email_rows with
            | Some r => Ok (series_get r (VStr "USRID_LONG") default_value)
            | None => Ok default_value
            end
          else if contains "phone" (lower nt) || contains "SUBTY=0020" nt then
            let* phone_rows := select_or person_data "COMM_TYPE"
                                 (fun v => eq_str v "PHONE") "SUBTY"
                                 (fun v => eq_num v 20) in
            match first_row phone_rows with
            | Some r => Ok (series_get r (VStr "USRID_LONG") default_value)
            | None => Ok default_value
            end
          else Ok default_value
      end
  end.

(** ** [_get_pa0006_value] (lines 116-132) *)
Definition get_pa0006_value (sd : list (string * table)) (person_id : string)
    (technical_field default_value : Value) : res Value :=
  match find_table sd "PA0006_Home_Address" with
  | None => Ok default_value
  | Some df =>
      let* person_data := person_rows df person_id in
      match rows person_data with
      | [] => Ok default_value
      | _ =>
          let* home_address := select person_data "SUBTY" (fun v => eq_num v 1) in
          match first_row home_address with
          | Some r => Ok (series_get r technical_field default_value)
          | None => Ok default_value
          end
      end
  end.

(** ** [_get_custom_value] (lines 144-148): both branches return the
    default, after [notes.lower()]. *)
Definition get_custom_value (notes default_value : Value) : res Value :=
  let* nt := as_str notes in
  if contains "organizational assignment" (lower nt) then Ok default_value
  else Ok default_value.

(** ** [_get_value_from_source] (lines 43-65) *)
Definition get_value_from_source (sd : list (string * table)) (person_id : string)
    (c : config) : res Value :=
  let st := source_table c in
  let tf := technical_field c in
  let nt := notes c in
  let dv := default_value c in
  if eq_str st "PA0002" then get_pa0002_value sd person_id tf nt dv
  else if eq_str st "PA0105" then get_pa0105_value sd person_id nt dv
  else if eq_str st "PA0006" then get_pa0006_value sd person_id tf dv
  else if eq_str st "PA0001" then Ok dv
  else if eq_str st "PA0000" then Ok dv
  else if eq_str st "Custom" then get_custom_value nt dv
  else Ok (if truthy dv then dv else VNone).

(** [Series.unique()]: distinct values in order of first appearance. *)
Fixpoint unique_aux (seen : list string) (l : list string) : list string :=
  match l with
  | [] => []
  | x :: t => if mem x seen then unique_aux seen t else x :: unique_aux (x :: seen) t
  end.

Definition unique (l : list string) : list string := unique_aux [] l.

Definition msg_not_loaded := "Mapping configuration and source data must be loaded first".
Definition msg_no_pa0002 := "PA0002_Personal Data is required as the main data source".

(** One output row: the configuration's target fields in dict order. *)
Definition transform_person (sd : list (string * table)) (cfg : list (string * config))
    (person_id : string) : res (list (string * Value)) :=
  map_res (fun '(target_field, c) =>
             let* value := get_value_from_source sd person_id c in
             Ok (target_field, value)) cfg.

(** ** [transform_data] (lines 214-239); the result DataFrame is the list
    of its rows. *)
Definition transform_data (m : mapper) : res (list (list (string * Value))) :=
  match mapping_config m, source_data m with
  | None, _ | Some [], _ | _, [] => Err (ValueError msg_not_loaded)
  | Some cfg, sd =>
      match find_table sd "PA0002_Personal Data" with
      | None => Err (ValueError msg_no_pa0002)
      | Some main_df =>
          let* pernr := column main_df "PERNR" in
          let person_ids := unique (map py_str pernr) in
          map_res (transform_person sd cfg) person_ids
      end
  end.

(** ** Reading the compiled configuration *)

(** [d.get(k)] on an ordered dict. *)
Fixpoint dict_get {A} (k : string) (d : list (string * A)) : option A :=
  match d with
  | [] => None
  | (k', v) :: d' => if String.eqb k' k then Some v else dict_get k d'
  end.

(** The target field a configuration row contributes, if the loop keeps it. *)
Definition row_target (cs : list string) (r : row) : option string :=
  match series_get (mk_series cs r) (VStr "Target Column (SuccessFactors)") (VStr "") with
  | VStr tf => if String.eqb (strip tf) "" then None else Some tf
  | _ => None
  end.

(** The kept target fields, in row order, duplicates included. *)
Fixpoint targets (cs : list string) (rs : list row) : list string :=
  match rs with
  | [] => []
  | r :: rs' =>
      match row_target cs r with
      | Some tf => tf :: targets cs rs'
      | None => targets cs rs'
      end
  end.

(** The rule built from the last row whose target field is [k]. *)
Fixpoint last_config (cs : list string) (rs : list row) (k : string) : option config :=
  match rs with
  | [] => None
  | r :: rs' =>
      match last_config cs rs' k with
      | Some c => Some c
      | None =>
          match row_target cs r with
          | Some tf => if String.eqb tf k then Some (row_config (mk_series cs r)) else None
          | None => None
          end
      end
  end.

(** ** Concrete inputs *)

(** A row from its column list and its cells. *)
Definition mk_row (cs : list string) (vs : list Value) : row := combine cs vs.

Definition config_cols : list string :=
  ["Target Column (SuccessFactors)"; "Source Table (ECC)";
   "Technical Field (ECC)"; "Notes / Transformation"; "Default Value"].

(** A mapping sheet with two rows targeting ["status"]. *)
Definition dup_mapping_df : table :=
  mk_table config_cols
    [mk_row config_cols [VStr "status"; VStr "PA0000"; VStr "STAT2"; VStr "old rule"; VNaN];
     mk_row config_cols [VStr "gender"; VStr "PA0002"; VStr "GESCH"; VStr ""; VNaN];
     mk_row config_cols [VStr "status"; VStr "PA0001"; VStr "STAT3"; VStr "new rule"; VStr "A"]].

Definition dup_cfg : list (string * config) :=
  Eval vm_compute in
    match load_mapping_config dup_mapping_df with Ok c => c | Err _ => [] end.

(** PA0002 personal data: entity 1001 has an empty [CNAME] cell. *)
Definition pa0002_cols : list string := ["PERNR"; "VORNA"; "NACHN"; "CNAME"].

Definition jane_row : row :=
  mk_row pa0002_cols [VNum 1001; VStr "Jane"; VStr "Doe"; VStr ""].

Definition jane_df : table := mk_table pa0002_cols [jane_row].

Definition jane_sd : list (string * table) := [("PA0002_Personal Data", jane_df)].

(** The display-name rule, reading raw value [tf]. *)
Definition concat_rule (tf : string) : config :=
  mk_config (VStr "Display Name") (VStr "PA0002") (VStr "") (VStr tf)
            (VStr "concatenate VORNA + NACHN") VNaN.

(** A PA0002 sheet with neither [VORNA] nor [NACHN]. *)
Definition noname_df : table :=
  mk_table ["PERNR"; "CNAME"] [mk_row ["PERNR"; "CNAME"] [VNum 1001; VStr "x"]].

(** A PA0002 sheet with no [VORNA] column. *)
Definition doe_df : table :=
  mk_table ["PERNR"; "NACHN"] [mk_row ["PERNR"; "NACHN"] [VNum 1001; VStr "Doe"]].

(** A mapper whose PA0002 sheet has no [PERNR] column. *)
Definition nopernr_mapper : mapper :=
  mk_mapper (Some dup_cfg)
    [("PA0002_Personal Data",
      mk_table ["ID"; "GESCH"] [mk_row ["ID"; "GESCH"] [VNum 1001; VStr "1"]])] [].

(** A mapper with a mapping configuration but no PA0002 sheet. *)
Definition nopa0002_mapper : mapper :=
  mk_mapper (Some dup_cfg) [("PA0105_Communication", mk_table ["PERNR"] [])] [].

(** PA0105 communication data: entity 1001 has an e-mail and a phone row. *)
Definition comm_cols : list string := ["PERNR"; "SUBTY"; "COMM_TYPE"; "USRID_LONG"].

Definition comm_df : table :=
  mk_table comm_cols
    [mk_row comm_cols [VNum 1001; VNum 10; VStr "EMAIL"; VStr "jane@corp.example"];
     mk_row comm_cols [VNum 1001; VNum 20; VStr "PHONE"; VStr "555-0100"]].

Definition comm_sd : list (string * table) :=
  [("PA0002_Personal Data", jane_df); ("PA0105_Communication", comm_df)].

(** A PA0105 rule with source table reference [st] and notes [nt]. *)
Definition comm_rule (st nt : string) (dv : Value) : config :=
  mk_config (VStr "Email") (VStr st) (VStr "") (VStr "USRID_LONG") (VStr nt) dv.

(** The row masks of the resolvers: the entity's rows, and the e-mail,
    phone and home-address rows. *)
Definition of_person (pid : string) (r : row) : bool :=
  String.eqb (py_str (cell r "PERNR")) pid.

Definition email_mask (r : row) : bool :=
  eq_str (cell r "COMM_TYPE") "EMAIL" || eq_num (cell r "SUBTY") 10.

Definition phone_mask (r : row) : bool :=
  eq_str (cell r "COMM_TYPE") "PHONE" || eq_num (cell r "SUBTY") 20.

Definition home_mask (r : row) : bool := eq_num (cell r "SUBTY") 1.

(** The notes tests of [_get_pa0105_value]. *)
Definition wants_email (nt : string) : bool :=
  contains "email" (lower nt) || contains "SUBTY=0010" nt.

Definition wants_phone (nt : string) : bool :=
  contains "phone" (lower nt) || contains "SUBTY=0020" nt.

(** The USRID_LONG of the first row of [rs], or the default. *)
Definition first_usrid (cs : list string) (rs : list row) (dv : Value) : res Value :=
  match rs with
  | r :: _ => Ok (series_get (mk_series cs r) (VStr "USRID_LONG") dv)
  | [] => Ok dv
  end.

(** A PA0002 sheet whose id column holds "1001" twice and an empty cell. *)
Definition nullid_df : table :=
  mk_table ["PERNR"; "GESCH"]
    [mk_row ["PERNR"; "GESCH"] [VStr "1001"; VStr "1"];
     mk_row ["PERNR"; "GESCH"] [VNaN; VStr "F"];
     mk_row ["PERNR"; "GESCH"] [VStr "1001"; VStr "1"]].

Definition gender_rule : config :=
  mk_config (VStr "Gender") (VStr "PA0002") (VStr "") (VStr "GESCH") (VStr "") VNaN.

Definition nullid_mapper : mapper :=
  mk_mapper (Some [("gender", gender_rule)]) [("PA0002_Personal Data", nullid_df)] [].

(** PA0006 home address with a start date in the source format. *)
Definition addr_df : table :=
  mk_table ["PERNR"; "SUBTY"; "BEGDA"]
    [mk_row ["PERNR"; "SUBTY"; "BEGDA"] [VNum 1001; VNum 1; VStr "19850613"]].

Definition begda_rule : config :=
  mk_config (VStr "Address Start") (VStr "PA0006") (VStr "") (VStr "BEGDA") (VStr "") (VStr "").

Definition addr_mapper : mapper :=
  mk_mapper (Some [("addressStartDate", begda_rule)])
    [("PA0002_Personal Data", jane_df); ("PA0006_Home_Address", addr_df)] [].

(** ** Well-formed inputs *)

Definition is_str (v : Value) : bool :=
  match v with VStr _ => true | _ => false end.

(** A loaded sheet [name], if any, has the columns [cs]. *)
Definition has_cols (sd : list (string * table)) (name : string) (cs : list string) : bool :=
  match find_table sd name with
  | None => true
  | Some df => forallb (fun c => mem c (cols df)) cs
  end.

(** The columns the resolvers index: PERNR everywhere, COMM_TYPE and SUBTY
    in PA0105, SUBTY in PA0006. *)
Definition sheets_wellformed (sd : list (string * table)) : bool :=
  has_cols sd "PA0002_Personal Data" ["PERNR"] &&
  has_cols sd "PA0105_Communication" ["PERNR"; "COMM_TYPE"; "SUBTY"] &&
  has_cols sd "PA0006_Home_Address" ["PERNR"; "SUBTY"].

(** A rule whose technical field and notes are strings (non-empty cells). *)
Definition rule_wellformed (c : config) : bool :=
  is_str (technical_field c) && is_str (notes c).

(** A configuration row the loop can read: its target cell is null or a
    string. *)
Definition target_readable (cs : list string) (r : row) : bool :=
  match series_get (mk_series cs r) (VStr "Target Column (SuccessFactors)") (VStr "") with
  | VNum _ => false
  | _ => true
  end.

(** The LOGIN rows of an entity in PA0105. *)
Definition login_mask (pid : string) (r : row) : bool :=
  of_person pid r && eq_str (cell r "COMM_TYPE") "LOGIN".

(** ** Loading the uploaded source workbooks (main, lines 313-334) *)

(** An uploaded workbook as the loader sees it: [None] when
    [pd.ExcelFile] fails, else its sheets in order, each [None] when
    [pd.read_excel] fails on it. *)
Definition workbook := option (list (string * option table)).

(** The sheet loop of one workbook: a failing sheet ends the [try] block,
    keeping the sheets read before it. *)
Fixpoint read_sheets (acc : list (string * table)) (sheets : list (string * option table))
    : list (string * table) :=
  match sheets with
  | [] => acc
  | (sheet_name, Some df) :: rest => read_sheets (dict_set (strip sheet_name) df acc) rest
  | (_, None) :: _ => acc
  end.

Definition read_workbooks (files : list workbook) : list (string * table) :=
  fold_left (fun acc f => match f with None => acc | Some sheets => read_sheets acc sheets end)
    files [].

(** [if source_data: mapper.load_source_data(source_data)]: a non-empty
    result replaces the mapper's tables. *)
Definition upload_source_files (m : mapper) (files : list workbook) : mapper :=
  match read_workbooks files with
  | [] => m
  | sd => mk_mapper (mapping_config m) sd (lookup_tables m)
  end.

(** The sheets that get read, in order: of each workbook that opens, the
    sheets before its first failing one. *)
Fixpoint sheets_read (sheets : list (string * option table)) : list (string * table) :=
  match sheets with
  | [] => []
  | (n, Some df) :: rest => (n, df) :: sheets_read rest
  | (_, None) :: _ => []
  end.

Definition all_sheets_read (files : list workbook) : list (string * table) :=
  flat_map (fun f => match f with None => [] | Some sheets => sheets_read sheets end) files.

(** The last read sheet whose stripped name is [k]. *)
Fixpoint last_sheet (l : list (string * table)) (k : string) : option table :=
  match l with
  | [] => None
  | (n, df) :: rest =>
      match last_sheet rest k with
      | Some t => Some t
      | None => if String.eqb (strip n) k then Some df else None
      end
  end.

(** A sheet whose second row's target has surrounding blanks: the key
    keeps them. *)
Definition padded_mapping_df : table :=
  mk_table config_cols
    [mk_row config_cols [VStr "status"; VStr "PA0000"; VStr "STAT2"; VStr ""; VNaN];
     mk_row config_cols [VStr " status "; VStr "PA0001"; VStr "STAT3"; VStr ""; VNaN];
     mk_row config_cols [VStr "   "; VStr "PA0002"; VStr "GESCH"; VStr ""; VNaN]].


(** The notes and field name route [_apply_transformations] to the
    username branch: none of the earlier tests holds, the username test
    does. *)
Definition routes_to_login (fn nt : string) : bool :=
  negb (contains "gender" (lower fn) || contains "GESCH" fn) &&
  negb (contains "date" (lower nt) || contains "GBDAT" fn || contains "BEGDA" fn) &&
  negb (contains "marital" (lower nt) || contains "FAMST" fn) &&
  negb (contains "concatenate VORNA + NACHN" nt) &&
  contains "login username" (lower nt).

(** PA0105 with LOGIN rows: another entity's first, then two of 1001. *)
Definition login_cols : list string := ["PERNR"; "COMM_TYPE"; "USRID"].

Definition login_df : table :=
  mk_table login_cols
    [mk_row login_cols [VNum 1002; VStr "LOGIN"; VStr "jsmith"];
     mk_row login_cols [VNum 1001; VStr "EMAIL"; VStr "jane@corp.example"];
     mk_row login_cols [VNum 1001; VStr "LOGIN"; VStr "jdoe"];
     mk_row login_cols [VNum 1001; VStr "LOGIN"; VStr "jdoe2"]].

Definition login_sd : list (string * table) :=
  [("PA0002_Personal Data", jane_df); ("PA0105_Communication", login_df)].

(** [not self.mapping_config or not self.source_data] fails. *)
Definition inputs_loaded (m : mapper) : bool :=
  match mapping_config m, source_data m with
  | Some (_ :: _), _ :: _ => true
  | _, _ => false
  end.

(** A Custom rule whose notes cell is empty. *)
Definition custom_rule : config :=
  mk_config (VStr "Org Unit") (VStr "Custom") (VStr "") (VStr "") VNaN (VStr "HQ").

(** Two rules over the PA0002 and PA0105 sheets of [comm_sd]. *)
Definition comm_mapper : mapper :=
  mk_mapper (Some [("email", comm_rule "PA0105" "Email address" VNaN); ("gender", gender_rule)])
    comm_sd [].

(** * Proofs *)

Open Scope list_scope.

(** ** Lists of strings and ordered dicts *)

Lemma mem_In x l : mem x l = true <-> In x l.
Proof.
  unfold mem. rewrite existsb_exists. split.
  - intros [y [Hy Heq]]. apply String.eqb_eq in Heq. subst. exact Hy.
  - intros H. exists x. split; [exact H | apply String.eqb_refl].
Qed.

Lemma mem_false_not_In x l : mem x l = false <-> ~ In x l.
Proof.
  rewrite <- mem_In. destruct (mem x l); split; congruence.
Qed.

Lemma unique_aux_ext l : forall s s',
  (forall x, mem x s = mem x s') -> unique_aux s l = unique_aux s' l.
Proof.
  induction l as [|y l IH]; intros s s' H; simpl; [reflexivity|].
  rewrite H. destruct (mem y s'); [apply IH; exact H|].
  f_equal. apply IH. intros x. simpl. rewrite H. reflexivity.
Qed.

Lemma unique_aux_nodup l : forall s,
  NoDup (unique_aux s l) /\ (forall x, In x (unique_aux s l) -> mem x s = false).
Proof.
  induction l as [|y l IH]; intros s; simpl.
  - split; [constructor | intros x []].
  - destruct (mem y s) eqn:Hy; [apply IH|].
    destruct (IH (y :: s)) as [Hnd Hout]. split.
    + constructor; [|exact Hnd].
      intros Hin. specialize (Hout y Hin). simpl in Hout.
      rewrite String.eqb_refl in Hout. discriminate.
    + intros x [<-|Hin]; [exact Hy|].
      specialize (Hout x Hin). simpl in Hout.
      apply orb_false_iff in Hout. apply Hout.
Qed.

Lemma unique_aux_In l : forall s x,
  In x (unique_aux s l) <-> In x l /\ mem x s = false.
Proof.
  induction l as [|y l IH]; intros s x; simpl.
  - tauto.
  - destruct (mem y s) eqn:Hy.
    + rewrite IH. split; [tauto|].
      intros [[<-|H] Hx]; [congruence | tauto].
    + simpl. rewrite IH. simpl. rewrite orb_false_iff.
      rewrite (String.eqb_sym x y).
      destruct (String.eqb_spec y x) as [<-|Hne].
      * split; [tauto|]. intros _. left. reflexivity.
      * split.
        -- intros [H|[H1 [_ H2]]]; [congruence | tauto].
        -- intros [[H|H] Hx]; [congruence|]. right. tauto.
Qed.

Lemma dict_set_get {A} (k x : string) (v : A) d :
  dict_get x (dict_set k v d) = if String.eqb k x then Some v else dict_get x d.
Proof.
  induction d as [|[k' v'] d IH]; simpl; [reflexivity|].
  destruct (String.eqb_spec k' k) as [->|Hne]; simpl.
  - destruct (String.eqb k x); reflexivity.
  - rewrite IH. destruct (String.eqb_spec k x) as [<-|Hkx].
    + apply String.eqb_neq in Hne. rewrite Hne. reflexivity.
    + reflexivity.
Qed.

Lemma dict_set_keys {A} (k : string) (v : A) d :
  map fst (dict_set k v d) =
  if mem k (map fst d) then map fst d else map fst d ++ [k].
Proof.
  induction d as [|[k' v'] d IH]; simpl; [reflexivity|].
  destruct (String.eqb_spec k' k) as [->|Hne]; simpl.
  - rewrite String.eqb_refl. reflexivity.
  - rewrite IH. rewrite (String.eqb_sym k k').
    apply String.eqb_neq in Hne. rewrite Hne. simpl.
    destruct (mem k (map fst d)); reflexivity.
Qed.

Lemma load_row_ok cs acc r acc' :
  load_row cs acc r = Ok acc' ->
  acc' = match row_target cs r with
         | Some tf => dict_set tf (row_config (mk_series cs r)) acc
         | None => acc
         end.
Proof.
  unfold load_row, row_target.
  destruct (series_get _ _ _) as [| |tf|z]; simpl; intros H; inversion H; auto.
  destruct (String.eqb (strip tf) ""); inversion H; reflexivity.
Qed.

Lemma load_rows_spec cs rs : forall acc cfg,
  load_rows cs acc rs = Ok cfg ->
  map fst cfg = map fst acc ++ unique_aux (map fst acc) (targets cs rs) /\
  (forall k, dict_get k cfg =
             match last_config cs rs k with
             | Some c => Some c
             | None => dict_get k acc
             end).
Proof.
  induction rs as [|r rs IH]; intros acc cfg H; simpl in *.
  - inversion H; subst. rewrite app_nil_r. split; reflexivity.
  - destruct (load_row cs acc r) as [acc'|e] eqn:Hr; simpl in H; [|discriminate].
    apply load_row_ok in Hr. destruct (IH _ _ H) as [Hkeys Hget]. clear IH H.
    destruct (row_target cs r) as [tf|]; subst acc'.
    + split.
      * rewrite Hkeys, dict_set_keys. simpl.
        destruct (mem tf (map fst acc)); [reflexivity|].
        rewrite <- app_assoc. simpl. f_equal. f_equal.
        apply unique_aux_ext. intros x. unfold mem.
        rewrite existsb_app. simpl. rewrite orb_false_r, orb_comm. reflexivity.
      * intros k. rewrite Hget. destruct (last_config cs rs k); [reflexivity|].
        rewrite dict_set_get. destruct (String.eqb tf k); reflexivity.
    + split; [exact Hkeys|].
      intros k. rewrite Hget. destruct (last_config cs rs k); reflexivity.
Qed.

(** ** Compiling the mapping configuration *)

Example dup_cfg_keys : map fst dup_cfg = ["status"; "gender"].
Proof. reflexivity. Qed.

Example dup_cfg_status :
  option_map source_table (dict_get "status" dup_cfg) = Some (VStr "PA0001").
Proof. reflexivity. Qed.

(** C9: after [load_mapping_config] the target fields are unique; they
    appear in the order of their first declaration; and the rule stored
    under a target field is the one built from the last row naming it. *)
Theorem load_mapping_config_last_wins (mapping_df : table) (cfg : list (string * config)) :
  load_mapping_config mapping_df = Ok cfg ->
  NoDup (map fst cfg) /\
  map fst cfg = unique (targets (cols mapping_df) (rows mapping_df)) /\
  (forall k, dict_get k cfg = last_config (cols mapping_df) (rows mapping_df) k).
Proof.
  unfold load_mapping_config. intros H.
  destruct (load_rows_spec _ _ _ _ H) as [Hkeys Hget]. simpl in Hkeys.
  split; [|split].
  - rewrite Hkeys. apply unique_aux_nodup.
  - exact Hkeys.
  - intros k. rewrite Hget. destruct (last_config _ _ k); reflexivity.
Qed.

Lemma load_mapping_config_last_wins_witness :
  load_mapping_config dup_mapping_df = Ok dup_cfg /\
  (NoDup (map fst dup_cfg) /\
   map fst dup_cfg = unique (targets (cols dup_mapping_df) (rows dup_mapping_df)) /\
   (forall k, dict_get k dup_cfg = last_config (cols dup_mapping_df) (rows dup_mapping_df) k)).
Proof.
  split; [reflexivity|].
  apply (load_mapping_config_last_wins dup_mapping_df dup_cfg). reflexivity.
Defined.

(** ** [_format_date] *)

Lemma length8_shape (s : string) :
  String.length s = 8%nat ->
  exists a1 a2 a3 a4 a5 a6 a7 a8,
    s = String a1 (String a2 (String a3 (String a4
          (String a5 (String a6 (String a7 (String a8 EmptyString))))))).
Proof.
  intros H.
  destruct s as [|a1 s]; [discriminate|]. destruct s as [|a2 s]; [discriminate|].
  destruct s as [|a3 s]; [discriminate|]. destruct s as [|a4 s]; [discriminate|].
  destruct s as [|a5 s]; [discriminate|]. destruct s as [|a6 s]; [discriminate|].
  destruct s as [|a7 s]; [discriminate|]. destruct s as [|a8 s]; [discriminate|].
  destruct s; [|discriminate].
  exists a1, a2, a3, a4, a5, a6, a7, a8. reflexivity.
Qed.

(** The integer 19850613 is not a string, yet it is rewritten. *)
Lemma format_date_not_unchanged :
  format_date (VNum 19850613) = VStr "1985-06-13" /\
  format_date (VNum 19850613) <> VNum 19850613.
Proof. split; [reflexivity | discriminate]. Qed.

(** C8 (amended): [_format_date] works on [str(value)]: when that string
    has 8 characters, all digits, the result is its slices [0:4], [4:6],
    [6:8] joined by dashes; a null input gives [None]; any other input
    gives [str(value)], so a string is returned unchanged.  The function
    is total (never raises) and idempotent. *)
Theorem format_date_spec :
  (forall v, isna v = false ->
     String.length (py_str v) = 8%nat -> isdigit (py_str v) = true ->
     format_date v = VStr (substring 0 4 (py_str v) ++ "-" ++ substring 4 2 (py_str v)
                           ++ "-" ++ substring 6 2 (py_str v))) /\
  (forall v, isna v = false ->
     ~ (String.length (py_str v) = 8%nat /\ isdigit (py_str v) = true) ->
     format_date v = VStr (py_str v)) /\
  (forall v, isna v = true -> format_date v = VNone) /\
  (forall v, format_date (format_date v) = format_date v).
Proof.
  unfold format_date. split; [|split; [|split]].
  - intros v Hna Hl Hd. rewrite Hna, Hl, Hd. reflexivity.
  - intros v Hna Hn. rewrite Hna.
    destruct (Nat.eqb_spec (String.length (py_str v)) 8) as [Hl|Hl]; simpl; [|reflexivity].
    destruct (isdigit (py_str v)) eqn:Hd; [|reflexivity]. exfalso. tauto.
  - intros v Hna. rewrite Hna. reflexivity.
  - intros v. destruct (isna v) eqn:Hna; [reflexivity|].
    destruct (Nat.eqb_spec (String.length (py_str v)) 8) as [Hl|Hl]; simpl.
    + destruct (isdigit (py_str v)) eqn:Hd; simpl.
      * destruct (length8_shape _ Hl) as (a1 & a2 & a3 & a4 & a5 & a6 & a7 & a8 & ->).
        reflexivity.
      * rewrite Hl, Hd. reflexivity.
    + apply Nat.eqb_neq in Hl. rewrite Hl. reflexivity.
Qed.

Lemma format_date_spec_witness :
  format_date (VStr "19850613") = VStr "1985-06-13" /\
  format_date (VStr "1985-06-13") = VStr "1985-06-13".
Proof.
  split.
  - apply (proj1 format_date_spec (VStr "19850613")); reflexivity.
  - apply (proj1 (proj2 format_date_spec) (VStr "1985-06-13")); [reflexivity|].
    simpl. intros [H _]. discriminate.
Defined.

(** ** Resolution of PA0002 rules *)

(** A PA0002 rule whose entity row is found: the raw cell of the first
    row of the entity goes through [_apply_transformations]. *)
Lemma get_value_pa0002 sd pid c df t r :
  eq_str (source_table c) "PA0002" = true ->
  find_table sd "PA0002_Personal Data" = Some df ->
  person_rows df pid = Ok t -> first_row t = Some r ->
  get_value_from_source sd pid c =
  apply_transformations sd (series_get r (technical_field c) (default_value c))
    (technical_field c) (notes c) r.
Proof.
  intros Hs Hf Hp Hr. unfold get_value_from_source. rewrite Hs.
  unfold get_pa0002_value. rewrite Hf, Hp. simpl. rewrite Hr. reflexivity.
Qed.

(** ** The null short-circuit *)

(** The display-name rule of entity 1001 reads the empty [CNAME] cell and
    yields [None], although [VORNA] and [NACHN] hold "Jane" and "Doe":
    the concatenation is not evaluated independently of the raw value. *)
Lemma concat_short_circuited :
  get_value_from_source jane_sd "1001" (concat_rule "CNAME") = Ok VNone /\
  get_value_from_source jane_sd "1001" (concat_rule "NACHN") = Ok (VStr "Jane Doe").
Proof. split; reflexivity. Qed.

(** C7 (amended): [_apply_transformations] returns [None] for a null or
    empty raw value before any transform is attempted, the concatenation
    included; so a PA0002 rule whose raw cell is null or empty yields
    [None]. *)
Theorem null_raw_gives_none :
  (forall sd value field_name nt person_row,
     null_or_empty value = true ->
     apply_transformations sd value field_name nt person_row = Ok VNone) /\
  (forall sd pid c df t r,
     eq_str (source_table c) "PA0002" = true ->
     find_table sd "PA0002_Personal Data" = Some df ->
     person_rows df pid = Ok t -> first_row t = Some r ->
     null_or_empty (series_get r (technical_field c) (default_value c)) = true ->
     get_value_from_source sd pid c = Ok VNone).
Proof.
  assert (Hnull : forall sd value field_name nt person_row,
             null_or_empty value = true ->
             apply_transformations sd value field_name nt person_row = Ok VNone).
  { intros sd value field_name nt person_row H.
    unfold apply_transformations. rewrite H. reflexivity. }
  split; [exact Hnull|].
  intros sd pid c df t r Hs Hf Hp Hr Hn.
  rewrite (get_value_pa0002 sd pid c df t r Hs Hf Hp Hr). apply Hnull. exact Hn.
Qed.

Lemma null_raw_gives_none_witness :
  get_value_from_source jane_sd "1001" (concat_rule "CNAME") = Ok VNone.
Proof.
  apply (proj2 null_raw_gives_none jane_sd "1001" (concat_rule "CNAME") jane_df
           jane_df (mk_series pa0002_cols jane_row)); reflexivity.
Defined.

(** ** The display-name concatenation *)

(** With neither column present the concatenation gives the empty
    string, not [None]. *)
Lemma concat_all_absent_empty_string :
  get_value_from_source [("PA0002_Personal Data", noname_df)] "1001"
    (concat_rule "CNAME") = Ok (VStr "") /\
  Ok (VStr "") <> Ok VNone.
Proof. split; [reflexivity | discriminate]. Qed.

Example concat_jane_doe :
  get_value_from_source jane_sd "1001" (concat_rule "NACHN") = Ok (VStr "Jane Doe").
Proof. reflexivity. Qed.

Example concat_missing_vorna :
  get_value_from_source [("PA0002_Personal Data", doe_df)] "1001" (concat_rule "NACHN")
  = Ok (VStr "Doe").
Proof. reflexivity. Qed.

(** C6 (amended): for a PA0002 rule whose notes contain
    "concatenate VORNA + NACHN", whose raw value is neither null nor
    empty and which triggers no gender, date or marital transform, the
    result is [str(VORNA) + " " + str(NACHN)], stripped, both read from
    the entity's first PA0002 row; a column absent from that row reads as
    the empty string, and when both are absent the result is the empty
    string. *)
Theorem concat_from_primary_row :
  forall sd pid c df t r f n,
    eq_str (source_table c) "PA0002" = true ->
    find_table sd "PA0002_Personal Data" = Some df ->
    person_rows df pid = Ok t -> first_row t = Some r ->
    technical_field c = VStr f -> notes c = VStr n ->
    null_or_empty (series_get r (VStr f) (default_value c)) = false ->
    (contains "gender" (lower f) || contains "GESCH" f) = false ->
    (contains "date" (lower n) || contains "GBDAT" f || contains "BEGDA" f) = false ->
    (contains "marital" (lower n) || contains "FAMST" f) = false ->
    contains "concatenate VORNA + NACHN" n = true ->
    get_value_from_source sd pid c =
      Ok (VStr (strip (py_str (series_get r (VStr "VORNA") (VStr "")) ++ " "
                       ++ py_str (series_get r (VStr "NACHN") (VStr ""))))) /\
    (~ In "VORNA" (s_index r) -> ~ In "NACHN" (s_index r) ->
     get_value_from_source sd pid c = Ok (VStr "")).
Proof.
  intros sd pid c df t r f n Hs Hf Hp Hr Htf Hn Hne Hg Hd Hm Hc.
  assert (Heq : get_value_from_source sd pid c =
      Ok (VStr (strip (py_str (series_get r (VStr "VORNA") (VStr "")) ++ " "
                       ++ py_str (series_get r (VStr "NACHN") (VStr "")))))).
  { rewrite (get_value_pa0002 sd pid c df t r Hs Hf Hp Hr).
    unfold apply_transformations. rewrite Htf, Hn. rewrite Hne. simpl.
    rewrite Hg. simpl. rewrite Hd. rewrite Hm. rewrite Hc. reflexivity. }
  split; [exact Heq|].
  intros Hv Hl. rewrite Heq. unfold series_get.
  apply mem_false_not_In in Hv. apply mem_false_not_In in Hl.
  rewrite Hv, Hl. reflexivity.
Qed.

Lemma concat_from_primary_row_witness :
  get_value_from_source jane_sd "1001" (concat_rule "NACHN") = Ok (VStr "Jane Doe").
Proof.
  rewrite (proj1 (concat_from_primary_row jane_sd "1001" (concat_rule "NACHN") jane_df
                    jane_df (mk_series pa0002_cols jane_row) "NACHN"
                    "concatenate VORNA + NACHN"
                    eq_refl eq_refl eq_refl eq_refl eq_refl eq_refl
                    eq_refl eq_refl eq_refl eq_refl eq_refl)).
  reflexivity.
Defined.

(** ** Missing primary data *)

(** Without a [PERNR] column the pass ends in a raw [KeyError]. *)
Lemma missing_pernr_key_error :
  transform_data nopernr_mapper = Err (KeyError "PERNR").
Proof. reflexivity. Qed.

(** C10 (amended): once a non-empty configuration and source data are
    loaded, a missing PA0002 sheet makes [transform_data] raise
    [ValueError] naming it, and a PA0002 sheet without a [PERNR] column
    makes it raise [KeyError('PERNR')] from the column access; in both
    cases no output is produced. *)
Theorem transform_data_missing_primary :
  forall m cfg,
    mapping_config m = Some cfg -> cfg <> [] -> source_data m <> [] ->
    (find_table (source_data m) "PA0002_Personal Data" = None ->
     transform_data m = Err (ValueError msg_no_pa0002)) /\
    (forall df, find_table (source_data m) "PA0002_Personal Data" = Some df ->
     mem "PERNR" (cols df) = false ->
     transform_data m = Err (KeyError "PERNR")).
Proof.
  intros [mc sd lt] cfg Hm Hc Hs; simpl in *; subst mc.
  destruct cfg as [|rule cfg]; [congruence|].
  destruct sd as [|e sd]; [congruence|].
  unfold transform_data; simpl. split.
  - intros Hf. rewrite Hf. reflexivity.
  - intros df Hf Hp. rewrite Hf. unfold column. rewrite Hp. reflexivity.
Qed.

Lemma transform_data_missing_primary_witness :
  transform_data nopa0002_mapper = Err (ValueError msg_no_pa0002) /\
  transform_data nopernr_mapper = Err (KeyError "PERNR").
Proof.
  split.
  - apply (proj1 (transform_data_missing_primary nopa0002_mapper dup_cfg
                    ltac:(reflexivity) ltac:(discriminate) ltac:(discriminate))).
    reflexivity.
  - apply (proj2 (transform_data_missing_primary nopernr_mapper dup_cfg
                    ltac:(reflexivity) ltac:(discriminate) ltac:(discriminate))
             (mk_table ["ID"; "GESCH"] [mk_row ["ID"; "GESCH"] [VNum 1001; VStr "1"]]));
      reflexivity.
Defined.

(** ** Matching the source table reference *)

(** The reference "PA0105_Communication", the very name of the loaded
    sheet, matches none of the codes: the rule resolves to [None] (its
    default is empty), while "PA0105" reads the e-mail row. *)
Lemma full_sheet_name_unmatched :
  get_value_from_source comm_sd "1001"
    (comm_rule "PA0105_Communication" "email" (VStr "")) = Ok VNone /\
  get_value_from_source comm_sd "1001"
    (comm_rule "PA0105" "email" (VStr "")) = Ok (VStr "jane@corp.example").
Proof. split; reflexivity. Qed.

Definition source_codes : list string :=
  ["PA0002"; "PA0105"; "PA0006"; "PA0001"; "PA0000"; "Custom"].

(** C4 (amended): the source table reference is compared by exact
    equality with the codes PA0002, PA0105, PA0006, PA0001, PA0000 and
    Custom.  Any other reference resolves, without raising, to the
    rule's default when it is truthy and to [None] otherwise; a PA0002,
    PA0105 or PA0006 reference whose fixed sheet is not loaded resolves,
    without raising, to the rule's default. *)
Theorem source_table_exact_match :
  (forall sd pid c,
     existsb (eq_str (source_table c)) source_codes = false ->
     get_value_from_source sd pid c =
       Ok (if truthy (default_value c) then default_value c else VNone)) /\
  (forall sd pid c,
     eq_str (source_table c) "PA0002" = true ->
     find_table sd "PA0002_Personal Data" = None ->
     get_value_from_source sd pid c = Ok (default_value c)) /\
  (forall sd pid c,
     eq_str (source_table c) "PA0105" = true ->
     find_table sd "PA0105_Communication" = None ->
     get_value_from_source sd pid c = Ok (default_value c)) /\
  (forall sd pid c,
     eq_str (source_table c) "PA0006" = true ->
     find_table sd "PA0006_Home_Address" = None ->
     get_value_from_source sd pid c = Ok (default_value c)).
Proof.
  unfold get_value_from_source. split; [|split; [|split]].
  - intros sd pid c H. simpl in H.
    repeat (apply orb_false_iff in H; destruct H as [-> H]).
    reflexivity.
  - intros sd pid c Hs Hf. rewrite Hs. unfold get_pa0002_value. rewrite Hf. reflexivity.
  - intros sd pid c Hs Hf. destruct (source_table c) as [| |st|z]; try discriminate.
    simpl in Hs. apply String.eqb_eq in Hs. subst st. simpl.
    unfold get_pa0105_value. rewrite Hf. reflexivity.
  - intros sd pid c Hs Hf. destruct (source_table c) as [| |st|z]; try discriminate.
    simpl in Hs. apply String.eqb_eq in Hs. subst st. simpl.
    unfold get_pa0006_value. rewrite Hf. reflexivity.
Qed.

Lemma source_table_exact_match_witness :
  get_value_from_source comm_sd "1001"
    (comm_rule "PA0105_Communication" "email" (VStr "")) = Ok VNone.
Proof.
  apply (proj1 source_table_exact_match comm_sd "1001"
           (comm_rule "PA0105_Communication" "email" (VStr ""))).
  reflexivity.
Defined.

(** ** Row selection *)

Lemma select_ok t c p :
  mem c (cols t) = true ->
  select t c p = Ok (mk_table (cols t) (filter (fun r => p (cell r c)) (rows t))).
Proof. intros H. unfold select. rewrite H. reflexivity. Qed.

Lemma select_or_ok t c1 p1 c2 p2 :
  mem c1 (cols t) = true -> mem c2 (cols t) = true ->
  select_or t c1 p1 c2 p2 =
  Ok (mk_table (cols t) (filter (fun r => p1 (cell r c1) || p2 (cell r c2)) (rows t))).
Proof. intros H1 H2. unfold select_or. rewrite H1, H2. reflexivity. Qed.

Lemma filter_filter_and {A} (p q : A -> bool) l :
  filter q (filter p l) = filter (fun x => p x && q x) l.
Proof.
  induction l as [|x l IH]; simpl; [reflexivity|].
  destruct (p x); simpl; [destruct (q x)|]; rewrite ?IH; reflexivity.
Qed.

Lemma filter_first {A} (f : A -> bool) pre r post :
  (forall x, In x pre -> f x = false) -> f r = true ->
  filter f (pre ++ r :: post) = r :: filter f post.
Proof.
  intros Hpre Hr. induction pre as [|x pre IH]; simpl.
  - rewrite Hr. reflexivity.
  - rewrite (Hpre x (or_introl eq_refl)). apply IH.
    intros y Hy. apply Hpre. right. exact Hy.
Qed.

Lemma filter_not_nil {A} (f : A -> bool) l r :
  In r l -> f r = true -> filter f l <> [].
Proof.
  intros Hin Hr Hnil. assert (H : In r (filter f l)) by (apply filter_In; tauto).
  rewrite Hnil in H. exact H.
Qed.

Lemma person_rows_ok df pid :
  mem "PERNR" (cols df) = true ->
  person_rows df pid = Ok (mk_table (cols df) (filter (of_person pid) (rows df))).
Proof. intros H. unfold person_rows, select. rewrite H. reflexivity. Qed.

Lemma email_rows_ok t :
  mem "COMM_TYPE" (cols t) = true -> mem "SUBTY" (cols t) = true ->
  select_or t "COMM_TYPE" (fun v => eq_str v "EMAIL") "SUBTY" (fun v => eq_num v 10)
  = Ok (mk_table (cols t) (filter email_mask (rows t))).
Proof. intros H1 H2. unfold select_or. rewrite H1, H2. reflexivity. Qed.

Lemma phone_rows_ok t :
  mem "COMM_TYPE" (cols t) = true -> mem "SUBTY" (cols t) = true ->
  select_or t "COMM_TYPE" (fun v => eq_str v "PHONE") "SUBTY" (fun v => eq_num v 20)
  = Ok (mk_table (cols t) (filter phone_mask (rows t))).
Proof. intros H1 H2. unfold select_or. rewrite H1, H2. reflexivity. Qed.

Lemma home_rows_ok t :
  mem "SUBTY" (cols t) = true ->
  select t "SUBTY" (fun v => eq_num v 1) = Ok (mk_table (cols t) (filter home_mask (rows t))).
Proof. intros H. unfold select. rewrite H. reflexivity. Qed.

(** [_get_pa0105_value] on string notes, flattened: the notes choose the
    e-mail mask, else the phone mask, else the default; the first row of
    the entity passing the mask is read. *)
Lemma pa0105_dispatch sd pid nt dv df :
  find_table sd "PA0105_Communication" = Some df ->
  mem "PERNR" (cols df) = true -> mem "COMM_TYPE" (cols df) = true ->
  mem "SUBTY" (cols df) = true ->
  get_pa0105_value sd pid (VStr nt) dv =
  if wants_email nt
  then first_usrid (cols df) (filter (fun r => of_person pid r && email_mask r) (rows df)) dv
  else if wants_phone nt
  then first_usrid (cols df) (filter (fun r => of_person pid r && phone_mask r) (rows df)) dv
  else Ok dv.
Proof.
  intros Hf Hp Hc Hs. unfold get_pa0105_value. rewrite Hf.
  rewrite (person_rows_ok df pid Hp). cbn [bind rows cols].
  rewrite <- !(filter_filter_and (of_person pid)).
  destruct (filter (of_person pid) (rows df)) as [|x l] eqn:HL.
  - simpl. destruct (wants_email nt), (wants_phone nt); reflexivity.
  - cbn [as_str bind]. unfold wants_email, wants_phone.
    destruct (contains "email" (lower nt) || contains "SUBTY=0010" nt).
    + rewrite email_rows_ok by assumption. cbn [bind rows cols first_row first_usrid].
      destruct (filter email_mask (x :: l)); reflexivity.
    + destruct (contains "phone" (lower nt) || contains "SUBTY=0020" nt);
        [|reflexivity].
      rewrite phone_rows_ok by assumption. cbn [bind rows cols first_row first_usrid].
      destruct (filter phone_mask (x :: l)); reflexivity.
Qed.

Lemma pa0006_dispatch sd pid tf dv df :
  find_table sd "PA0006_Home_Address" = Some df ->
  mem "PERNR" (cols df) = true -> mem "SUBTY" (cols df) = true ->
  get_pa0006_value sd pid tf dv =
  match filter (fun r => of_person pid r && home_mask r) (rows df) with
  | r :: _ => Ok (series_get (mk_series (cols df) r) tf dv)
  | [] => Ok dv
  end.
Proof.
  intros Hf Hp Hs. unfold get_pa0006_value. rewrite Hf.
  rewrite (person_rows_ok df pid Hp). cbn [bind rows cols].
  rewrite <- (filter_filter_and (of_person pid)).
  destruct (filter (of_person pid) (rows df)) as [|x l] eqn:HL; [reflexivity|].
  rewrite home_rows_ok by assumption. cbn [bind rows cols first_row].
  destruct (filter home_mask (x :: l)); reflexivity.
Qed.

Lemma pa0002_dispatch sd pid tf nt dv df :
  find_table sd "PA0002_Personal Data" = Some df ->
  mem "PERNR" (cols df) = true ->
  get_pa0002_value sd pid tf nt dv =
  match filter (of_person pid) (rows df) with
  | r :: _ =>
      apply_transformations sd (series_get (mk_series (cols df) r) tf dv) tf nt
        (mk_series (cols df) r)
  | [] => Ok dv
  end.
Proof.
  intros Hf Hp. unfold get_pa0002_value. rewrite Hf.
  rewrite (person_rows_ok df pid Hp). cbn [bind rows cols first_row].
  destruct (filter (of_person pid) (rows df)); reflexivity.
Qed.

Lemma get_value_pa0105 sd pid c :
  eq_str (source_table c) "PA0105" = true ->
  get_value_from_source sd pid c = get_pa0105_value sd pid (notes c) (default_value c).
Proof.
  intros Hs. unfold get_value_from_source.
  destruct (source_table c) as [| |st|z]; try discriminate.
  simpl in Hs. apply String.eqb_eq in Hs. subst st. reflexivity.
Qed.

Lemma get_value_pa0006 sd pid c :
  eq_str (source_table c) "PA0006" = true ->
  get_value_from_source sd pid c =
  get_pa0006_value sd pid (technical_field c) (default_value c).
Proof.
  intros Hs. unfold get_value_from_source.
  destruct (source_table c) as [| |st|z]; try discriminate.
  simpl in Hs. apply String.eqb_eq in Hs. subst st. reflexivity.
Qed.

(** ** Subtype disambiguation *)

(** With notes requesting no subtype, PA0105 resolution gives the
    default, not the entity's first row (whose USRID_LONG is the e-mail
    address). *)
Lemma no_subtype_gives_default :
  get_value_from_source comm_sd "1001" (comm_rule "PA0105" "" (VStr "n/a"))
  = Ok (VStr "n/a").
Proof. reflexivity. Qed.

(** C3 (amended): a PA0105 lookup whose notes request e-mail (or, failing
    that, phone) returns the USRID_LONG of the first row in input order of
    the entity passing the e-mail (phone) mask; notes requesting neither
    give the default; PA0006 reads the first row of the entity with
    SUBTY = 1; PA0002 transforms the first row of the entity. *)
Theorem first_matching_row_in_input_order :
  (forall sd pid nt dv df pre r post mask,
     find_table sd "PA0105_Communication" = Some df ->
     mem "PERNR" (cols df) = true -> mem "COMM_TYPE" (cols df) = true ->
     mem "SUBTY" (cols df) = true ->
     (wants_email nt = true /\ mask = email_mask \/
      wants_email nt = false /\ wants_phone nt = true /\ mask = phone_mask) ->
     rows df = pre ++ r :: post ->
     (forall x, In x pre -> of_person pid x && mask x = false) ->
     of_person pid r && mask r = true ->
     get_pa0105_value sd pid (VStr nt) dv =
       Ok (series_get (mk_series (cols df) r) (VStr "USRID_LONG") dv)) /\
  (forall sd pid nt dv df,
     find_table sd "PA0105_Communication" = Some df ->
     mem "PERNR" (cols df) = true -> mem "COMM_TYPE" (cols df) = true ->
     mem "SUBTY" (cols df) = true ->
     wants_email nt = false -> wants_phone nt = false ->
     get_pa0105_value sd pid (VStr nt) dv = Ok dv) /\
  (forall sd pid tf dv df pre r post,
     find_table sd "PA0006_Home_Address" = Some df ->
     mem "PERNR" (cols df) = true -> mem "SUBTY" (cols df) = true ->
     rows df = pre ++ r :: post ->
     (forall x, In x pre -> of_person pid x && home_mask x = false) ->
     of_person pid r && home_mask r = true ->
     get_pa0006_value sd pid tf dv = Ok (series_get (mk_series (cols df) r) tf dv)) /\
  (forall sd pid tf nt dv df pre r post,
     find_table sd "PA0002_Personal Data" = Some df ->
     mem "PERNR" (cols df) = true ->
     rows df = pre ++ r :: post ->
     (forall x, In x pre -> of_person pid x = false) ->
     of_person pid r = true ->
     get_pa0002_value sd pid tf nt dv =
       apply_transformations sd (series_get (mk_series (cols df) r) tf dv) tf nt
         (mk_series (cols df) r)).
Proof.
  split; [|split; [|split]].
  - intros sd pid nt dv df pre r post mask Hf Hp Hc Hs Hm Hrows Hpre Hr.
    rewrite (pa0105_dispatch sd pid nt dv df Hf Hp Hc Hs).
    destruct Hm as [[He ->] | [He [Hph ->]]].
    + rewrite He, Hrows, (filter_first _ pre r post Hpre Hr). reflexivity.
    + rewrite He, Hph, Hrows, (filter_first _ pre r post Hpre Hr). reflexivity.
  - intros sd pid nt dv df Hf Hp Hc Hs He Hph.
    rewrite (pa0105_dispatch sd pid nt dv df Hf Hp Hc Hs), He, Hph. reflexivity.
  - intros sd pid tf dv df pre r post Hf Hp Hs Hrows Hpre Hr.
    rewrite (pa0006_dispatch sd pid tf dv df Hf Hp Hs), Hrows,
      (filter_first _ pre r post Hpre Hr).
    reflexivity.
  - intros sd pid tf nt dv df pre r post Hf Hp Hrows Hpre Hr.
    rewrite (pa0002_dispatch sd pid tf nt dv df Hf Hp), Hrows,
      (filter_first _ pre r post Hpre Hr).
    reflexivity.
Qed.

Lemma first_matching_row_in_input_order_witness :
  get_pa0105_value comm_sd "1001" (VStr "phone") (VStr "n/a") = Ok (VStr "555-0100").
Proof.
  apply (proj1 first_matching_row_in_input_order comm_sd "1001" "phone" (VStr "n/a")
           comm_df [hd [] (rows comm_df)] (nth 1 (rows comm_df) []) [] phone_mask);
    try reflexivity.
  - right. split; [reflexivity | split; reflexivity].
  - intros x [<-|[]]. reflexivity.
Defined.

(** Subtype text other than the literals "SUBTY=0010" / "SUBTY=0020" is
    not recognised: lower case, a space separator or no leading zeros
    all fall back to the default, although entity 1001 has a SUBTY 10
    row. *)
Lemma subtype_text_not_parsed :
  get_value_from_source comm_sd "1001" (comm_rule "PA0105" "subty=0010" (VStr "n/a"))
    = Ok (VStr "n/a") /\
  get_value_from_source comm_sd "1001" (comm_rule "PA0105" "SUBTY 10" (VStr "n/a"))
    = Ok (VStr "n/a") /\
  get_value_from_source comm_sd "1001" (comm_rule "PA0105" "SUBTY=10" (VStr "n/a"))
    = Ok (VStr "n/a").
Proof. repeat split; reflexivity. Qed.

(** C5 (amended): the communication subtype of a PA0105 rule is chosen at
    lookup time from its notes: e-mail (COMM_TYPE = "EMAIL" or SUBTY = 10)
    when the lower-cased notes contain "email" or the notes contain the
    literal "SUBTY=0010"; otherwise phone (COMM_TYPE = "PHONE" or
    SUBTY = 20) when the lower-cased notes contain "phone" or the notes
    contain "SUBTY=0020"; otherwise no row is selected and the default is
    returned. *)
Theorem pa0105_subtype_from_notes :
  forall sd pid c nt df,
    eq_str (source_table c) "PA0105" = true -> notes c = VStr nt ->
    find_table sd "PA0105_Communication" = Some df ->
    mem "PERNR" (cols df) = true -> mem "COMM_TYPE" (cols df) = true ->
    mem "SUBTY" (cols df) = true ->
    get_value_from_source sd pid c =
    if contains "email" (lower nt) || contains "SUBTY=0010" nt
    then first_usrid (cols df)
           (filter (fun r => of_person pid r &&
                      (eq_str (cell r "COMM_TYPE") "EMAIL" || eq_num (cell r "SUBTY") 10))
              (rows df)) (default_value c)
    else if contains "phone" (lower nt) || contains "SUBTY=0020" nt
    then first_usrid (cols df)
           (filter (fun r => of_person pid r &&
                      (eq_str (cell r "COMM_TYPE") "PHONE" || eq_num (cell r "SUBTY") 20))
              (rows df)) (default_value c)
    else Ok (default_value c).
Proof.
  intros sd pid c nt df Hs Hn Hf Hp Hc Hsub.
  rewrite (get_value_pa0105 sd pid c Hs), Hn.
  exact (pa0105_dispatch sd pid nt (default_value c) df Hf Hp Hc Hsub).
Qed.

Lemma pa0105_subtype_from_notes_witness :
  get_value_from_source comm_sd "1001" (comm_rule "PA0105" "SUBTY=0020" (VStr "n/a"))
  = Ok (VStr "555-0100").
Proof.
  rewrite (pa0105_subtype_from_notes comm_sd "1001"
             (comm_rule "PA0105" "SUBTY=0020" (VStr "n/a")) "SUBTY=0020" comm_df);
    reflexivity.
Defined.

(** ** Assembling the output *)

Lemma map_res_Forall2 {A B} (f : A -> res B) l : forall out,
  map_res f l = Ok out -> Forall2 (fun x y => f x = Ok y) l out.
Proof.
  induction l as [|x l IH]; intros out H; simpl in H.
  - inversion H. constructor.
  - destruct (f x) as [y|e] eqn:Hx; simpl in H; [|discriminate].
    destruct (map_res f l) as [ys|e] eqn:Hl; simpl in H; [|discriminate].
    inversion H; subst. constructor; [exact Hx | apply IH; reflexivity].
Qed.

Lemma transform_data_ok m out :
  transform_data m = Ok out ->
  exists cfg main_df pernr,
    mapping_config m = Some cfg /\
    find_table (source_data m) "PA0002_Personal Data" = Some main_df /\
    column main_df "PERNR" = Ok pernr /\
    Forall2 (fun pid record => transform_person (source_data m) cfg pid = Ok record)
      (unique (map py_str pernr)) out.
Proof.
  destruct m as [mc sd lt]. unfold transform_data. cbn [mapping_config source_data].
  intros H. destruct mc as [cfg|]; [|discriminate].
  destruct cfg as [|rule cfg]; [discriminate|].
  destruct sd as [|e sd]; [destruct rule; discriminate|].
  cbv beta iota in H.
  destruct (find_table (e :: sd) "PA0002_Personal Data") as [main_df|] eqn:Hf;
    [|discriminate].
  destruct (column main_df "PERNR") as [pernr|err] eqn:Hc; cbn [bind] in H;
    [|discriminate].
  exists (rule :: cfg), main_df, pernr.
  repeat split; auto. apply map_res_Forall2. exact H.
Qed.

Lemma mem_app x l1 l2 : mem x (l1 ++ l2) = mem x l1 || mem x l2.
Proof. unfold mem. apply existsb_app. Qed.

Lemma unique_aux_filter_seen l : forall s s',
  unique_aux s (filter (fun y => negb (mem y s')) l) = unique_aux (s ++ s') l.
Proof.
  induction l as [|y l IH]; intros s s'; simpl; [reflexivity|].
  rewrite mem_app. destruct (mem y s') eqn:Hs'; simpl.
  - rewrite orb_true_r. apply IH.
  - rewrite orb_false_r. destruct (mem y s); [apply IH|].
    f_equal. apply (IH (y :: s) s').
Qed.

Lemma unique_cons x l :
  unique (x :: l) = x :: unique (filter (fun y => negb (String.eqb y x)) l).
Proof.
  unfold unique. simpl. f_equal.
  rewrite <- (unique_aux_filter_seen l [] [x]
               : unique_aux [] (filter (fun y => negb (mem y [x])) l) = unique_aux [x] l).
  f_equal.
  apply filter_ext. intros y. simpl. rewrite orb_false_r. reflexivity.
Qed.

Lemma select_sub t c p t' :
  select t c p = Ok t' -> cols t' = cols t /\ (forall r, In r (rows t') -> In r (rows t)).
Proof.
  unfold select. destruct (mem c (cols t)); intros H; inversion H; subst; simpl.
  split; [reflexivity|]. intros r Hr. apply filter_In in Hr. tauto.
Qed.

Lemma select_or_sub t c1 p1 c2 p2 t' :
  select_or t c1 p1 c2 p2 = Ok t' ->
  cols t' = cols t /\ (forall r, In r (rows t') -> In r (rows t)).
Proof.
  unfold select_or. destruct (mem c1 (cols t)), (mem c2 (cols t));
    intros H; inversion H; subst; simpl.
  split; [reflexivity|]. intros r Hr. apply filter_In in Hr. tauto.
Qed.

Lemma first_row_in t s :
  first_row t = Some s -> exists r, In r (rows t) /\ s = mk_series (cols t) r.
Proof.
  unfold first_row. destruct (rows t) as [|r l]; intros H; inversion H; subst.
  exists r. split; [left; reflexivity | reflexivity].
Qed.

(** The value a PA0105 rule writes is its default or the USRID_LONG cell
    of a PA0105 row, untransformed. *)
Lemma pa0105_raw sd pid nt dv v :
  get_pa0105_value sd pid nt dv = Ok v ->
  v = dv \/ exists df r, find_table sd "PA0105_Communication" = Some df /\
                         In r (rows df) /\
                         v = series_get (mk_series (cols df) r) (VStr "USRID_LONG") dv.
Proof.
  unfold get_pa0105_value. intros H.
  destruct (find_table sd "PA0105_Communication") as [df|] eqn:Hf;
    [|left; congruence].
  destruct (person_rows df pid) as [pd|e] eqn:Hp; cbn [bind] in H; [|discriminate].
  apply select_sub in Hp. destruct Hp as [Hpc Hpr].
  destruct (rows pd) as [|x l] eqn:Hrows; [left; congruence|].
  destruct (as_str nt) as [n|e]; cbn [bind] in H; [|discriminate].
  assert (Hsel : forall p1 p2 er s,
             select_or pd "COMM_TYPE" p1 "SUBTY" p2 = Ok er -> first_row er = Some s ->
             exists r, In r (rows df) /\ series_get s (VStr "USRID_LONG") dv =
                       series_get (mk_series (cols df) r) (VStr "USRID_LONG") dv).
  { intros p1 p2 er s Hs Hfr. apply select_or_sub in Hs. destruct Hs as [Hec Her].
    apply first_row_in in Hfr. destruct Hfr as [r [Hin ->]].
    exists r. split; [apply Hpr; rewrite <- Hrows; apply Her, Hin
                     | rewrite Hec, Hpc; reflexivity]. }
  destruct (contains "email" (lower n) || contains "SUBTY=0010" n).
  - destruct (select_or pd _ _ _ _) as [er|e] eqn:Hs; cbn [bind] in H; [|discriminate].
    destruct (first_row er) as [s|] eqn:Hfr; [|left; congruence].
    destruct (Hsel _ _ _ _ Hs Hfr) as [r [Hin Heq]].
    right. exists df, r. inversion H. auto.
  - destruct (contains "phone" (lower n) || contains "SUBTY=0020" n); [|left; congruence].
    destruct (select_or pd _ _ _ _) as [er|e] eqn:Hs; cbn [bind] in H; [|discriminate].
    destruct (first_row er) as [s|] eqn:Hfr; [|left; congruence].
    destruct (Hsel _ _ _ _ Hs Hfr) as [r [Hin Heq]].
    right. exists df, r. inversion H. auto.
Qed.

(** The value a PA0006 rule writes is its default or the technical-field
    cell of a PA0006 row, untransformed. *)
Lemma pa0006_raw sd pid tf dv v :
  get_pa0006_value sd pid tf dv = Ok v ->
  v = dv \/ exists df r, find_table sd "PA0006_Home_Address" = Some df /\
                         In r (rows df) /\
                         v = series_get (mk_series (cols df) r) tf dv.
Proof.
  unfold get_pa0006_value. intros H.
  destruct (find_table sd "PA0006_Home_Address") as [df|] eqn:Hf; [|left; congruence].
  destruct (person_rows df pid) as [pd|e] eqn:Hp; cbn [bind] in H; [|discriminate].
  apply select_sub in Hp. destruct Hp as [Hpc Hpr].
  destruct (rows pd) as [|x l] eqn:Hrows; [left; congruence|].
  destruct (select pd _ _) as [ha|e] eqn:Hs; cbn [bind] in H; [|discriminate].
  apply select_sub in Hs. destruct Hs as [Hhc Hhr].
  destruct (first_row ha) as [s|] eqn:Hfr; [|left; congruence].
  apply first_row_in in Hfr. destruct Hfr as [r [Hin ->]].
  right. exists df, r. inversion H. rewrite Hhc, Hpc. split; [auto|].
  split; [apply Hpr; rewrite <- Hrows; apply Hhr, Hin | reflexivity].
Qed.

Lemma Forall2_same_length {A B} (R : A -> B -> Prop) l l' :
  Forall2 R l l' -> length l' = length l.
Proof. induction 1; simpl; congruence. Qed.

(** ** Entity ids *)

(** The empty id cell is not dropped: it becomes the id "nan", and a
    second record is emitted for it. *)
Lemma null_id_not_dropped :
  unique (map py_str [VStr "1001"; VNaN; VStr "1001"]) = ["1001"; "nan"] /\
  transform_data nullid_mapper =
    Ok [[("gender", VStr "Male")]; [("gender", VStr "Female")]].
Proof. split; reflexivity. Qed.

(** C2 (amended): the entity ids are the distinct string forms [str(v)]
    of the PERNR column values, in first-seen order (null cells are kept,
    as "nan" or "None"); [transform_data] emits exactly one record per
    such id, in that order: the i-th record is the one built for the
    i-th id. *)
Theorem entity_ids_distinct_first_seen m out :
  transform_data m = Ok out ->
  exists cfg main_df pernr,
    mapping_config m = Some cfg /\
    find_table (source_data m) "PA0002_Personal Data" = Some main_df /\
    column main_df "PERNR" = Ok pernr /\
    Forall2 (fun pid record => transform_person (source_data m) cfg pid = Ok record)
      (unique (map py_str pernr)) out /\
    length out = length (unique (map py_str pernr)) /\
    NoDup (unique (map py_str pernr)) /\
    (forall x, In x (unique (map py_str pernr)) <-> exists v, In v pernr /\ py_str v = x) /\
    (forall x l, unique (x :: l) = x :: unique (filter (fun y => negb (String.eqb y x)) l)).
Proof.
  intros H. destruct (transform_data_ok m out H) as (cfg & main_df & pernr & Hm & Hf & Hc & Hall).
  exists cfg, main_df, pernr. split; [exact Hm|]. split; [exact Hf|]. split; [exact Hc|].
  split; [exact Hall|].
  split; [exact (Forall2_same_length _ _ _ Hall)|].
  split; [apply unique_aux_nodup|]. split; [|exact unique_cons].
  intros x. unfold unique. rewrite unique_aux_In, in_map_iff. simpl.
  split; [intros [[v [Hv Hin]] _]; exists v; tauto|].
  intros [v [Hin Hv]]. split; [exists v; tauto | reflexivity].
Qed.

Lemma entity_ids_distinct_first_seen_witness :
  transform_data nullid_mapper =
    Ok [[("gender", VStr "Male")]; [("gender", VStr "Female")]] /\
  exists cfg main_df pernr,
    mapping_config nullid_mapper = Some cfg /\
    find_table (source_data nullid_mapper) "PA0002_Personal Data" = Some main_df /\
    column main_df "PERNR" = Ok pernr /\
    Forall2 (fun pid record => transform_person (source_data nullid_mapper) cfg pid = Ok record)
      (unique (map py_str pernr)) [[("gender", VStr "Male")]; [("gender", VStr "Female")]] /\
    length [[("gender", VStr "Male")]; [("gender", VStr "Female")]]
      = length (unique (map py_str pernr)) /\
    NoDup (unique (map py_str pernr)) /\
    (forall x, In x (unique (map py_str pernr)) <-> exists v, In v pernr /\ py_str v = x) /\
    (forall x l, unique (x :: l) = x :: unique (filter (fun y => negb (String.eqb y x)) l)).
Proof.
  split; [reflexivity|].
  apply (entity_ids_distinct_first_seen nullid_mapper). reflexivity.
Defined.

(** ** Per-rule values *)

(** The PA0006 start date is written as read; the transformation pipeline
    applied to that raw value would have rewritten it. *)
Lemma satellite_value_not_transformed :
  transform_data addr_mapper = Ok [[("addressStartDate", VStr "19850613")]] /\
  apply_transformations (source_data addr_mapper) (VStr "19850613") (VStr "BEGDA")
    (VStr "") (mk_series pa0002_cols jane_row) = Ok (VStr "1985-06-13").
Proof. split; reflexivity. Qed.

(** C1 (amended): each record holds, under every target field of the
    configuration and in its order, [_get_value_from_source] of the
    entity and the rule.  Only a PA0002 rule whose entity row is found
    passes its raw value through [_apply_transformations]; a PA0105 or
    PA0006 rule writes its default or the selected cell as read. *)
Theorem record_fields_per_rule m out :
  transform_data m = Ok out ->
  exists cfg main_df pernr,
    mapping_config m = Some cfg /\
    find_table (source_data m) "PA0002_Personal Data" = Some main_df /\
    column main_df "PERNR" = Ok pernr /\
    Forall2 (fun pid record =>
      Forall2 (fun rule field =>
                 fst field = fst rule /\
                 get_value_from_source (source_data m) pid (snd rule) = Ok (snd field))
        cfg record) (unique (map py_str pernr)) out /\
    (forall pid c df t r,
       eq_str (source_table c) "PA0002" = true ->
       find_table (source_data m) "PA0002_Personal Data" = Some df ->
       person_rows df pid = Ok t -> first_row t = Some r ->
       get_value_from_source (source_data m) pid c =
       apply_transformations (source_data m)
         (series_get r (technical_field c) (default_value c))
         (technical_field c) (notes c) r) /\
    (forall pid c v,
       eq_str (source_table c) "PA0105" = true ->
       get_value_from_source (source_data m) pid c = Ok v ->
       v = default_value c \/
       exists df r, find_table (source_data m) "PA0105_Communication" = Some df /\
                    In r (rows df) /\
                    v = series_get (mk_series (cols df) r) (VStr "USRID_LONG") (default_value c)) /\
    (forall pid c v,
       eq_str (source_table c) "PA0006" = true ->
       get_value_from_source (source_data m) pid c = Ok v ->
       v = default_value c \/
       exists df r, find_table (source_data m) "PA0006_Home_Address" = Some df /\
                    In r (rows df) /\
                    v = series_get (mk_series (cols df) r) (technical_field c) (default_value c)).
Proof.
  intros H. destruct (transform_data_ok m out H) as (cfg & main_df & pernr & Hm & Hf & Hc & Hall).
  exists cfg, main_df, pernr. split; [exact Hm|]. split; [exact Hf|]. split; [exact Hc|].
  split; [|split; [|split]].
  - revert Hall. apply Forall2_impl. intros pid record Hp.
    unfold transform_person in Hp. apply map_res_Forall2 in Hp.
    revert Hp. apply Forall2_impl. intros [tf c] field Hfield.
    destruct (get_value_from_source (source_data m) pid c) as [v|e] eqn:Hv;
      cbn [bind] in Hfield; [|discriminate].
    inversion Hfield; subst. simpl. auto.
  - intros pid c df t r. apply get_value_pa0002.
  - intros pid c v Hs Hv. rewrite (get_value_pa0105 _ _ _ Hs) in Hv.
    exact (pa0105_raw _ _ _ _ _ Hv).
  - intros pid c v Hs Hv. rewrite (get_value_pa0006 _ _ _ Hs) in Hv.
    exact (pa0006_raw _ _ _ _ _ Hv).
Qed.

Lemma record_fields_per_rule_witness :
  transform_data addr_mapper = Ok [[("addressStartDate", VStr "19850613")]] /\
  exists cfg main_df pernr,
    mapping_config addr_mapper = Some cfg /\
    find_table (source_data addr_mapper) "PA0002_Personal Data" = Some main_df /\
    column main_df "PERNR" = Ok pernr /\
    Forall2 (fun pid record =>
      Forall2 (fun rule field =>
                 fst field = fst rule /\
                 get_value_from_source (source_data addr_mapper) pid (snd rule) = Ok (snd field))
        cfg record) (unique (map py_str pernr)) [[("addressStartDate", VStr "19850613")]] /\
    (forall pid c df t r,
       eq_str (source_table c) "PA0002" = true ->
       find_table (source_data addr_mapper) "PA0002_Personal Data" = Some df ->
       person_rows df pid = Ok t -> first_row t = Some r ->
       get_value_from_source (source_data addr_mapper) pid c =
       apply_transformations (source_data addr_mapper)
         (series_get r (technical_field c) (default_value c))
         (technical_field c) (notes c) r) /\
    (forall pid c v,
       eq_str (source_table c) "PA0105" = true ->
       get_value_from_source (source_data addr_mapper) pid c = Ok v ->
       v = default_value c \/
       exists df r, find_table (source_data addr_mapper) "PA0105_Communication" = Some df /\
                    In r (rows df) /\
                    v = series_get (mk_series (cols df) r) (VStr "USRID_LONG") (default_value c)) /\
    (forall pid c v,
       eq_str (source_table c) "PA0006" = true ->
       get_value_from_source (source_data addr_mapper) pid c = Ok v ->
       v = default_value c \/
       exists df r, find_table (source_data addr_mapper) "PA0006_Home_Address" = Some df /\
                    In r (rows df) /\
                    v = series_get (mk_series (cols df) r) (technical_field c) (default_value c)).
Proof.
  split; [reflexivity|].
  apply (record_fields_per_rule addr_mapper). reflexivity.
Defined.

(** * Further properties of the code *)

(** ** Loading the mapping configuration *)

Lemma load_row_readable cs acc r :
  (target_readable cs r = true -> exists acc', load_row cs acc r = Ok acc') /\
  (target_readable cs r = false ->
   load_row cs acc r = Err (AttributeError "object has no attribute 'strip'")).
Proof.
  unfold target_readable, load_row.
  destruct (series_get _ _ _) as [| |tf|z]; simpl; split; intros H;
    try discriminate; eauto.
  destruct (String.eqb (strip tf) ""); eauto.
Qed.

Lemma load_rows_total cs rs : forall acc,
  ((exists cfg, load_rows cs acc rs = Ok cfg) <->
   forallb (target_readable cs) rs = true) /\
  (forall e, load_rows cs acc rs = Err e ->
   e = AttributeError "object has no attribute 'strip'").
Proof.
  induction rs as [|r rs IH]; intros acc; simpl.
  - split; [split; eauto|]. intros e H. discriminate.
  - destruct (load_row_readable cs acc r) as [Hok Hko].
    destruct (target_readable cs r) eqn:Hr; simpl.
    + destruct (Hok eq_refl) as [acc' Hacc']. rewrite Hacc'. cbn [bind].
      exact (IH acc').
    + rewrite (Hko eq_refl). cbn [bind]. split.
      * split; [intros [cfg H]; discriminate | discriminate].
      * intros e H. inversion H. reflexivity.
Qed.

(** X1: [load_mapping_config] succeeds exactly when every row's target
    cell is null or a string; otherwise it fails with the
    [AttributeError] of [.strip()] on a number. *)
Theorem load_mapping_config_succeeds_iff (mapping_df : table) :
  ((exists cfg, load_mapping_config mapping_df = Ok cfg) <->
   forallb (target_readable (cols mapping_df)) (rows mapping_df) = true) /\
  (forall e, load_mapping_config mapping_df = Err e ->
   e = AttributeError "object has no attribute 'strip'").
Proof. apply load_rows_total. Qed.

Lemma targets_In cs rs k :
  In k (targets cs rs) -> exists r, In r rs /\ row_target cs r = Some k.
Proof.
  induction rs as [|r rs IH]; simpl; [tauto|].
  destruct (row_target cs r) as [tf|] eqn:Hr.
  - intros [<-|H]; [exists r; tauto|].
    destruct (IH H) as [r' [Hin Ht]]. exists r'. tauto.
  - intros H. destruct (IH H) as [r' [Hin Ht]]. exists r'. tauto.
Qed.

(** X2: every key of the compiled configuration is, unstripped, the
    target cell of some configuration row, and is not blank. *)
Theorem compiled_keys_are_raw_targets (mapping_df : table) cfg :
  load_mapping_config mapping_df = Ok cfg ->
  forall k, In k (map fst cfg) ->
    strip k <> "" /\
    exists r, In r (rows mapping_df) /\
      series_get (mk_series (cols mapping_df) r)
        (VStr "Target Column (SuccessFactors)") (VStr "") = VStr k.
Proof.
  unfold load_mapping_config. intros H k Hk.
  destruct (load_rows_spec _ _ _ _ H) as [Hkeys _]. simpl in Hkeys.
  rewrite Hkeys in Hk. apply unique_aux_In in Hk. destruct Hk as [Hk _].
  destruct (targets_In _ _ _ Hk) as [r [Hin Hr]].
  unfold row_target in Hr.
  destruct (series_get _ _ _) as [| |tf|z] eqn:Hs; try discriminate.
  destruct (String.eqb_spec (strip tf) "") as [_|Hne]; [discriminate|].
  inversion Hr; subst tf. split; [exact Hne|]. exists r. tauto.
Qed.

Lemma compiled_keys_are_raw_targets_witness :
  load_mapping_config padded_mapping_df = Ok
    (match load_mapping_config padded_mapping_df with Ok c => c | Err _ => [] end) /\
  strip " status " <> "" /\
  exists r, In r (rows padded_mapping_df) /\
    series_get (mk_series (cols padded_mapping_df) r)
      (VStr "Target Column (SuccessFactors)") (VStr "") = VStr " status ".
Proof.
  split; [reflexivity|].
  apply (compiled_keys_are_raw_targets padded_mapping_df
           (match load_mapping_config padded_mapping_df with Ok c => c | Err _ => [] end));
    [reflexivity | simpl; tauto].
Defined.

(** ** Code-table transforms *)

Lemma map_get_idem (m : string -> option string) value :
  (forall k s, m k = Some s -> m s = None /\ s <> "") ->
  null_or_empty value = false ->
  null_or_empty (map_get m value) = false /\
  map_get m (map_get m value) = map_get m value.
Proof.
  intros Hm Hv. unfold map_get. destruct (m (py_str value)) as [s|] eqn:E.
  - destruct (Hm _ _ E) as [Hs Hne]. simpl. rewrite Hs. split; [|reflexivity].
    apply String.eqb_neq. exact Hne.
  - rewrite E. split; [exact Hv | reflexivity].
Qed.

Lemma gender_map_inv k s : gender_map k = Some s -> gender_map s = None /\ s <> "".
Proof.
  unfold gender_map. intros H.
  repeat match type of H with context [String.eqb ?a ?b] => destruct (String.eqb a b) end;
    inversion H; subst; split; (reflexivity || discriminate).
Qed.

Lemma marital_map_inv k s : marital_map k = Some s -> marital_map s = None /\ s <> "".
Proof.
  unfold marital_map. intros H.
  repeat match type of H with context [String.eqb ?a ?b] => destruct (String.eqb a b) end;
    inversion H; subst; split; (reflexivity || discriminate).
Qed.

(** X3: for a gender field, transforming the transformed value again
    leaves it unchanged. *)
Theorem gender_transform_idempotent sd value fn notes r w :
  (contains "gender" (lower fn) || contains "GESCH" fn) = true ->
  apply_transformations sd value (VStr fn) notes r = Ok w ->
  apply_transformations sd w (VStr fn) notes r = Ok w.
Proof.
  intros Hg H. unfold apply_transformations in *.
  destruct (null_or_empty value) eqn:Hv.
  - inversion H; subst. reflexivity.
  - cbn [as_str bind] in H. rewrite Hg in H. inversion H; subst w.
    destruct (map_get_idem gender_map value gender_map_inv Hv) as [H1 H2].
    rewrite H1. cbn [as_str bind]. rewrite Hg, H2. reflexivity.
Qed.

Lemma gender_transform_idempotent_witness :
  apply_transformations [] (VStr "2") (VStr "GESCH") VNaN (mk_series [] [])
    = Ok (VStr "Female") /\
  apply_transformations [] (VStr "Female") (VStr "GESCH") VNaN (mk_series [] [])
    = Ok (VStr "Female").
Proof.
  split; [reflexivity|].
  apply (gender_transform_idempotent [] (VStr "2") "GESCH" VNaN (mk_series [] []));
    reflexivity.
Defined.

(** X4: for a marital-status rule, transforming the transformed value
    again leaves it unchanged. *)
Theorem marital_transform_idempotent sd value fn nt r w :
  (contains "gender" (lower fn) || contains "GESCH" fn) = false ->
  (contains "date" (lower nt) || contains "GBDAT" fn || contains "BEGDA" fn) = false ->
  (contains "marital" (lower nt) || contains "FAMST" fn) = true ->
  apply_transformations sd value (VStr fn) (VStr nt) r = Ok w ->
  apply_transformations sd w (VStr fn) (VStr nt) r = Ok w.
Proof.
  intros Hg Hd Hm H. unfold apply_transformations in *.
  destruct (null_or_empty value) eqn:Hv.
  - inversion H; subst. reflexivity.
  - cbn [as_str bind] in H. rewrite Hg, Hd, Hm in H. inversion H; subst w.
    destruct (map_get_idem marital_map value marital_map_inv Hv) as [H1 H2].
    rewrite H1. cbn [as_str bind]. rewrite Hg, Hd, Hm, H2. reflexivity.
Qed.

Lemma marital_transform_idempotent_witness :
  apply_transformations [] (VNum 1) (VStr "FAMST") (VStr "") (mk_series [] [])
    = Ok (VStr "Married") /\
  apply_transformations [] (VStr "Married") (VStr "FAMST") (VStr "") (mk_series [] [])
    = Ok (VStr "Married").
Proof.
  split; [reflexivity|].
  apply (marital_transform_idempotent [] (VNum 1) "FAMST" "" (mk_series [] []));
    reflexivity.
Defined.

(** ** The username branch *)

(** X5: in the username branch, a present value is replaced by the
    [USRID] cell of the first PA0105 row, in sheet order, with the entity's
    id and COMM_TYPE LOGIN; without such a row, or without a PA0105 sheet,
    the value is kept. *)
Theorem login_username_first_login_row sd value fn nt r :
  null_or_empty value = false ->
  routes_to_login fn nt = true ->
  has_cols sd "PA0105_Communication" ["PERNR"; "COMM_TYPE"] = true ->
  apply_transformations sd value (VStr fn) (VStr nt) r =
  Ok (match find_table sd "PA0105_Communication" with
      | None => value
      | Some df =>
          match filter (login_mask (py_str (series_get r (VStr "PERNR") (VStr ""))))
                  (rows df) with
          | r' :: _ => series_get (mk_series (cols df) r') (VStr "USRID") value
          | [] => value
          end
      end).
Proof.
  intros Hv Hroute Hc. unfold routes_to_login in Hroute.
  repeat rewrite andb_true_iff in Hroute.
  destruct Hroute as [[[[H1 H2] H3] H4] H5].
  apply negb_true_iff in H1, H2, H3, H4.
  unfold apply_transformations. rewrite Hv. cbn [as_str bind].
  rewrite H1. cbn [as_str bind]. rewrite H2, H3, H4, H5.
  unfold login_username, has_cols in *.
  destruct (find_table sd "PA0105_Communication") as [df|]; [|reflexivity].
  simpl in Hc. rewrite andb_true_r in Hc. apply andb_true_iff in Hc.
  destruct Hc as [Hp Hct]. unfold select_and. rewrite Hp, Hct.
  cbn [bind first_row rows cols]. unfold login_mask, of_person. cbv beta.
  destruct (filter _ (rows df)); reflexivity.
Qed.

Lemma login_username_first_login_row_witness :
  apply_transformations login_sd (VStr "JANE") (VStr "USRID") (VStr "Login username")
    (mk_series pa0002_cols jane_row) = Ok (VStr "jdoe").
Proof.
  apply (login_username_first_login_row login_sd (VStr "JANE") "USRID" "Login username"
           (mk_series pa0002_cols jane_row)); reflexivity.
Defined.

(** ** What [_apply_transformations] raises *)

(** X6: [_apply_transformations] raises only on a present value: the
    [AttributeError] of [.lower()] when the field name or the notes are not
    strings, or the [KeyError] of a PA0105 sheet lacking PERNR or
    COMM_TYPE. *)
Theorem apply_transformations_errors sd value field_name notes r e :
  apply_transformations sd value field_name notes r = Err e ->
  null_or_empty value = false /\
  ((e = AttributeError "object has no attribute 'lower'" /\
    (is_str field_name = false \/ is_str notes = false)) \/
   ((e = KeyError "PERNR" \/ e = KeyError "COMM_TYPE") /\
    has_cols sd "PA0105_Communication" ["PERNR"; "COMM_TYPE"] = false)).
Proof.
  unfold apply_transformations. intros H.
  destruct (null_or_empty value); [discriminate|]. split; [reflexivity|].
  destruct field_name as [| |fn|z];
    try (cbn [as_str bind] in H; inversion H; subst; left; split; auto; fail).
  cbn [as_str bind] in H.
  destruct (contains "gender" (lower fn) || contains "GESCH" fn); [discriminate|].
  destruct notes as [| |nt|z];
    try (cbn [as_str bind] in H; inversion H; subst; left; split; auto; fail).
  cbn [as_str bind] in H.
  destruct (contains "date" (lower nt) || contains "GBDAT" fn || contains "BEGDA" fn);
    [discriminate|].
  destruct (contains "marital" (lower nt) || contains "FAMST" fn); [discriminate|].
  destruct (contains "concatenate VORNA + NACHN" nt); [discriminate|].
  destruct (contains "login username" (lower nt)); [|discriminate].
  unfold login_username, has_cols in *.
  destruct (find_table sd "PA0105_Communication") as [df|]; [|discriminate].
  right. simpl. unfold select_and in H.
  destruct (mem "PERNR" (cols df)), (mem "COMM_TYPE" (cols df));
    cbn [bind] in H; try (destruct (first_row _); discriminate);
    inversion H; subst; auto.
Qed.

Lemma apply_transformations_errors_witness :
  apply_transformations [("PA0105_Communication", mk_table ["PERNR"] [])]
    (VStr "x") (VStr "USRID") (VStr "Login username") (mk_series [] [])
    = Err (KeyError "COMM_TYPE") /\
  null_or_empty (VStr "x") = false /\
  ((KeyError "COMM_TYPE" = AttributeError "object has no attribute 'lower'" /\
    (is_str (VStr "USRID") = false \/ is_str (VStr "Login username") = false)) \/
   ((KeyError "COMM_TYPE" = KeyError "PERNR" \/ KeyError "COMM_TYPE" = KeyError "COMM_TYPE") /\
    has_cols [("PA0105_Communication", mk_table ["PERNR"] [])] "PA0105_Communication"
      ["PERNR"; "COMM_TYPE"] = false)).
Proof.
  split; [reflexivity|].
  apply (apply_transformations_errors [("PA0105_Communication", mk_table ["PERNR"] [])]
           (VStr "x") (VStr "USRID") (VStr "Login username") (mk_series [] [])).
  reflexivity.
Defined.

(** ** Resolving one value *)

Ltac crush_res :=
  repeat (match goal with
          | |- context [match ?x with _ => _ end] =>
              lazymatch x with
              | match _ with _ => _ end => fail
              | _ => destruct x
              end
          end; cbv beta iota).

Lemma has_cols_mem sd name cs df c :
  has_cols sd name cs = true -> find_table sd name = Some df -> In c cs ->
  mem c (cols df) = true.
Proof.
  unfold has_cols. intros H Hf Hc. rewrite Hf in H.
  rewrite forallb_forall in H. apply H, Hc.
Qed.

Lemma has_cols_intro sd name cs :
  (forall df, find_table sd name = Some df -> forall c, In c cs -> mem c (cols df) = true) ->
  has_cols sd name cs = true.
Proof.
  unfold has_cols. destruct (find_table sd name) as [df|]; [|reflexivity].
  intros H. apply forallb_forall. apply H. reflexivity.
Qed.

Lemma apply_transformations_ok sd value fn nt r :
  has_cols sd "PA0105_Communication" ["PERNR"; "COMM_TYPE"] = true ->
  exists w, apply_transformations sd value (VStr fn) (VStr nt) r = Ok w.
Proof.
  intros Hc. unfold apply_transformations, login_username, select_and, bind, as_str.
  destruct (find_table sd "PA0105_Communication") as [df|] eqn:Hf.
  - rewrite (has_cols_mem _ _ _ df "PERNR" Hc Hf (or_introl eq_refl)).
    rewrite (has_cols_mem _ _ _ df "COMM_TYPE" Hc Hf (or_intror (or_introl eq_refl))).
    crush_res; eauto.
  - crush_res; eauto.
Qed.

(** X7: on sheets that have the columns the resolvers index and a rule
    whose technical field and notes are strings, [_get_value_from_source]
    returns a value and raises nothing. *)
Theorem get_value_from_source_total sd person_id c :
  sheets_wellformed sd = true -> rule_wellformed c = true ->
  exists v, get_value_from_source sd person_id c = Ok v.
Proof.
  intros Hs Hr. unfold sheets_wellformed in Hs.
  apply andb_true_iff in Hs. destruct Hs as [Hs H6].
  apply andb_true_iff in Hs. destruct Hs as [H2 H105].
  destruct c as [tn st sf tf nt dv]. unfold rule_wellformed in Hr. simpl in Hr.
  destruct tf as [| |tf|]; try discriminate. destruct nt as [| |nt|]; try discriminate.
  unfold get_value_from_source. cbn [source_table technical_field notes default_value].
  assert (H105' : has_cols sd "PA0105_Communication" ["PERNR"; "COMM_TYPE"] = true).
  { apply has_cols_intro. intros df Hf c Hc.
    apply (has_cols_mem _ _ _ df c H105 Hf). simpl in *. tauto. }
  destruct (eq_str st "PA0002").
  { destruct (find_table sd "PA0002_Personal Data") as [df|] eqn:Hf.
    - rewrite (pa0002_dispatch sd person_id (VStr tf) (VStr nt) dv df Hf
                 (has_cols_mem _ _ _ df "PERNR" H2 Hf (or_introl eq_refl))).
      destruct (filter _ _); [eauto|]. apply apply_transformations_ok, H105'.
    - unfold get_pa0002_value. rewrite Hf. eauto. }
  destruct (eq_str st "PA0105").
  { destruct (find_table sd "PA0105_Communication") as [df|] eqn:Hf.
    - rewrite (pa0105_dispatch sd person_id nt dv df Hf
                 (has_cols_mem _ _ _ df "PERNR" H105 Hf ltac:(simpl; tauto))
                 (has_cols_mem _ _ _ df "COMM_TYPE" H105 Hf ltac:(simpl; tauto))
                 (has_cols_mem _ _ _ df "SUBTY" H105 Hf ltac:(simpl; tauto))).
      unfold first_usrid. crush_res; eauto.
    - unfold get_pa0105_value. rewrite Hf. eauto. }
  destruct (eq_str st "PA0006").
  { destruct (find_table sd "PA0006_Home_Address") as [df|] eqn:Hf.
    - rewrite (pa0006_dispatch sd person_id (VStr tf) dv df Hf
                 (has_cols_mem _ _ _ df "PERNR" H6 Hf ltac:(simpl; tauto))
                 (has_cols_mem _ _ _ df "SUBTY" H6 Hf ltac:(simpl; tauto))).
      destruct (filter _ _); eauto.
    - unfold get_pa0006_value. rewrite Hf. eauto. }
  unfold get_custom_value, bind, as_str. crush_res; eauto.
Qed.

Lemma get_value_from_source_total_witness :
  sheets_wellformed comm_sd = true /\
  rule_wellformed (comm_rule "PA0105" "Email address" VNaN) = true /\
  exists v, get_value_from_source comm_sd "1001" (comm_rule "PA0105" "Email address" VNaN)
            = Ok v.
Proof.
  split; [reflexivity|]. split; [reflexivity|].
  apply get_value_from_source_total; reflexivity.
Defined.

(** X8: a Custom rule gives its default value, whatever the notes say,
    when its notes cell is a string, and raises the [AttributeError] of
    [.lower()] when it is not (an empty cell). *)
Theorem custom_rule_value sd person_id c :
  eq_str (source_table c) "Custom" = true ->
  get_value_from_source sd person_id c =
  if is_str (notes c) then Ok (default_value c)
  else Err (AttributeError "object has no attribute 'lower'").
Proof.
  intros Hs. unfold get_value_from_source.
  destruct (source_table c) as [| |st|z]; try discriminate.
  simpl in Hs. apply String.eqb_eq in Hs. subst st. cbn [eq_str String.eqb].
  unfold get_custom_value, bind, as_str.
  destruct (notes c) as [| |nt|]; try reflexivity.
  destruct (contains _ _); reflexivity.
Qed.

Lemma custom_rule_value_witness :
  get_value_from_source jane_sd "1001" custom_rule
  = Err (AttributeError "object has no attribute 'lower'").
Proof. apply (custom_rule_value jane_sd "1001" custom_rule). reflexivity. Defined.

(** ** What [transform_data] raises *)

Lemma apply_transformations_no_value_error sd v fn nt r msg :
  apply_transformations sd v fn nt r <> Err (ValueError msg).
Proof.
  unfold apply_transformations, login_username, select_and, bind, as_str.
  crush_res; discriminate.
Qed.

Lemma get_value_from_source_no_value_error sd pid c msg :
  get_value_from_source sd pid c <> Err (ValueError msg).
Proof.
  unfold get_value_from_source, get_pa0002_value, get_pa0105_value, get_pa0006_value,
    get_custom_value, person_rows, select, select_or, bind, as_str.
  crush_res; try discriminate; apply apply_transformations_no_value_error.
Qed.

Lemma map_res_err {A B} (f : A -> res B) l e :
  map_res f l = Err e -> exists x, In x l /\ f x = Err e.
Proof.
  induction l as [|x l IH]; simpl; intros H; [discriminate|].
  destruct (f x) as [y|e'] eqn:Hx; simpl in H.
  - destruct (map_res f l) as [ys|e''] eqn:Hl; simpl in H; [discriminate|].
    inversion H; subst. destruct (IH eq_refl) as [x' [Hin Hx']]. eauto.
  - inversion H; subst. eauto.
Qed.

Lemma transform_person_no_value_error sd cfg pid msg :
  transform_person sd cfg pid <> Err (ValueError msg).
Proof.
  unfold transform_person. intros H. apply map_res_err in H.
  destruct H as [[tf c] [_ H]].
  destruct (get_value_from_source sd pid c) as [v|e] eqn:Hg; simpl in H; [discriminate|].
  inversion H; subst. exact (get_value_from_source_no_value_error sd pid c msg Hg).
Qed.

(** X9: [transform_data] raises [ValueError] exactly on its two guards:
    the not-loaded message when the configuration or the source data is
    missing or empty, and the PA0002 message when both are loaded but no
    table is named "PA0002_Personal Data". *)
Theorem transform_data_value_errors m msg :
  transform_data m = Err (ValueError msg) <->
  (inputs_loaded m = false /\ msg = msg_not_loaded) \/
  (inputs_loaded m = true /\
   find_table (source_data m) "PA0002_Personal Data" = None /\ msg = msg_no_pa0002).
Proof.
  destruct m as [mc sd lt]. unfold transform_data, inputs_loaded.
  cbn [mapping_config source_data].
  destruct mc as [[|rule cfg]|];
    [split; [intros H; inversion H; auto | intros [[_ ->]|[H _]]; [reflexivity|discriminate]]
    | |split; [intros H; inversion H; auto | intros [[_ ->]|[H _]]; [reflexivity|discriminate]]].
  destruct sd as [|e sd].
  { destruct rule. cbv beta iota.
    split; [intros H; inversion H; auto | intros [[_ ->]|[H _]]; [reflexivity|discriminate]]. }
  cbv beta iota.
  destruct (find_table (e :: sd) "PA0002_Personal Data") as [main_df|] eqn:Hf.
  - split; [|intros [[H _]|[_ [H _]]]; discriminate].
    intros H. exfalso. unfold column in H.
    destruct (mem "PERNR" (cols main_df)); cbn [bind] in H; [|discriminate].
    apply map_res_err in H. destruct H as [pid [_ H]].
    exact (transform_person_no_value_error _ _ _ _ H).
  - split.
    + intros H. inversion H; subst. right. auto.
    + intros [[H _]|[_ [_ ->]]]; [discriminate | reflexivity].
Qed.

(** ** A successful run *)

Lemma map_res_total {A B} (f : A -> res B) l :
  (forall x, In x l -> exists y, f x = Ok y) ->
  exists out, map_res f l = Ok out.
Proof.
  induction l as [|x l IH]; simpl; intros H; [eauto|].
  destruct (H x (or_introl eq_refl)) as [y Hy]. rewrite Hy. cbn [bind].
  destruct IH as [ys Hys]; [intros x' Hx'; apply H; right; exact Hx'|].
  rewrite Hys. cbn [bind]. eauto.
Qed.

Lemma Forall2_map_fst {A B} (R : (string * A) -> (string * B) -> Prop) (l : list (string * A))
    (l' : list (string * B)) :
  (forall x y, R x y -> fst y = fst x) -> Forall2 R l l' -> map fst l' = map fst l.
Proof.
  intros HR H. induction H as [|x y l l' Hxy _ IH]; simpl; [reflexivity|].
  rewrite (HR x y Hxy), IH. reflexivity.
Qed.

(** X10: with a non-empty configuration of well-formed rules and
    well-formed sheets including PA0002, [transform_data] succeeds with one
    record per distinct [str(PERNR)] of PA0002, each record holding the
    configuration's target fields in order. *)
Theorem transform_data_succeeds m cfg main_df :
  mapping_config m = Some cfg -> cfg <> [] ->
  find_table (source_data m) "PA0002_Personal Data" = Some main_df ->
  sheets_wellformed (source_data m) = true ->
  forallb (fun tc => rule_wellformed (snd tc)) cfg = true ->
  exists out, transform_data m = Ok out /\
    length out = length (unique (map (fun r => py_str (cell r "PERNR")) (rows main_df))) /\
    Forall (fun record => map fst record = map fst cfg) out.
Proof.
  intros Hm Hne Hf Hs Hr. destruct m as [mc sd lt]. cbn [mapping_config source_data] in *.
  subst mc. unfold transform_data. cbn [mapping_config source_data].
  assert (Hp : mem "PERNR" (cols main_df) = true).
  { unfold sheets_wellformed in Hs. apply andb_true_iff in Hs. destruct Hs as [Hs _].
    apply andb_true_iff in Hs. destruct Hs as [Hs _].
    exact (has_cols_mem _ _ _ main_df "PERNR" Hs Hf (or_introl eq_refl)). }
  assert (Hperson : forall pid, exists record,
             transform_person sd cfg pid = Ok record /\ map fst record = map fst cfg).
  { intros pid. unfold transform_person.
    destruct (map_res_total
                (fun '(target_field, c) =>
                   let* value := get_value_from_source sd pid c in Ok (target_field, value))
                cfg) as [record Hrec].
    - intros [tf c] Hin. rewrite forallb_forall in Hr. specialize (Hr _ Hin). simpl in Hr.
      destruct (get_value_from_source_total sd pid c Hs Hr) as [v Hv].
      rewrite Hv. cbn [bind]. eauto.
    - exists record. split; [exact Hrec|].
      apply map_res_Forall2 in Hrec. revert Hrec. apply Forall2_map_fst.
      intros [tf c] [tf' v] H. destruct (get_value_from_source sd pid c); simpl in H;
        inversion H; reflexivity. }
  destruct (map_res_total (transform_person sd cfg)
              (unique (map (fun r => py_str (cell r "PERNR")) (rows main_df))))
    as [out Hout].
  { intros pid _. destruct (Hperson pid) as [record [H _]]. eauto. }
  exists out.
  assert (Hrun : transform_data (mk_mapper (Some cfg) sd lt) = Ok out).
  { unfold transform_data. cbn [mapping_config source_data].
    destruct cfg as [|rule cfg']; [contradiction|].
    destruct sd as [|e sd']; [discriminate|].
    cbv beta iota. rewrite Hf. unfold column. rewrite Hp. cbn [bind].
    rewrite map_map. exact Hout. }
  split; [exact Hrun|].
  apply map_res_Forall2 in Hout. split.
  - exact (Forall2_same_length _ _ _ Hout).
  - clear Hrun. induction Hout as [|pid record pids out Hpr _ IH]; constructor; [|exact IH].
    destruct (Hperson pid) as [record' [H1 H2]]. rewrite Hpr in H1. inversion H1; subst.
    exact H2.
Qed.

Lemma transform_data_succeeds_witness :
  exists out, transform_data comm_mapper = Ok out /\
    length out = length (unique (map (fun r => py_str (cell r "PERNR")) (rows jane_df))) /\
    Forall (fun record => map fst record = map fst
      [("email", comm_rule "PA0105" "Email address" VNaN); ("gender", gender_rule)]) out.
Proof.
  apply (transform_data_succeeds comm_mapper
           [("email", comm_rule "PA0105" "Email address" VNaN); ("gender", gender_rule)]
           jane_df); try reflexivity. discriminate.
Defined.

(** ** Loading the uploaded workbooks *)

Lemma find_table_dict_get d k : find_table d k = dict_get k d.
Proof. induction d as [|[k' t] d IH]; simpl; [reflexivity|]. rewrite IH. reflexivity. Qed.

Lemma dict_set_not_nil {A} k (v : A) d : dict_set k v d <> [].
Proof. destruct d as [|[k' v'] d]; simpl; [|destruct (String.eqb k' k)]; discriminate. Qed.

Lemma read_sheets_lookup sheets : forall acc k,
  find_table (read_sheets acc sheets) k =
  match last_sheet (sheets_read sheets) k with
  | Some t => Some t
  | None => find_table acc k
  end.
Proof.
  induction sheets as [|[n [df|]] rest IH]; intros acc k; simpl; try reflexivity.
  rewrite IH. destruct (last_sheet (sheets_read rest) k); [reflexivity|].
  rewrite !find_table_dict_get, dict_set_get. destruct (String.eqb _ k); reflexivity.
Qed.

Lemma read_sheets_nil sheets : forall acc,
  read_sheets acc sheets = [] <-> acc = [] /\ sheets_read sheets = [].
Proof.
  induction sheets as [|[n [df|]] rest IH]; intros acc; simpl; try tauto.
  rewrite IH. split; [intros [H _]; exfalso; exact (dict_set_not_nil _ _ _ H)|].
  intros [_ H]. discriminate.
Qed.

Lemma last_sheet_app l1 l2 k :
  last_sheet (l1 ++ l2) k =
  match last_sheet l2 k with Some t => Some t | None => last_sheet l1 k end.
Proof.
  induction l1 as [|[n df] l1 IH]; simpl.
  - destruct (last_sheet l2 k); reflexivity.
  - rewrite IH. destruct (last_sheet l2 k); reflexivity.
Qed.

Lemma read_workbooks_aux files : forall acc,
  (forall k, find_table
     (fold_left (fun acc f => match f with None => acc | Some sheets => read_sheets acc sheets end)
        files acc) k =
   match last_sheet (all_sheets_read files) k with
   | Some t => Some t
   | None => find_table acc k
   end) /\
  (fold_left (fun acc f => match f with None => acc | Some sheets => read_sheets acc sheets end)
     files acc = [] <-> acc = [] /\ all_sheets_read files = []).
Proof.
  unfold all_sheets_read.
  induction files as [|[sheets|] files IH]; intros acc; simpl.
  - split; [reflexivity | tauto].
  - destruct (IH (read_sheets acc sheets)) as [IHl IHn]. split.
    + intros k. rewrite IHl, last_sheet_app, read_sheets_lookup.
      destruct (last_sheet (flat_map _ files) k); reflexivity.
    + rewrite IHn. pose proof (read_sheets_nil sheets acc) as Hr. split.
      * intros [H1 H2]. apply Hr in H1. destruct H1 as [Ha Hs]. rewrite Hs, H2. auto.
      * intros [Ha Hall]. apply app_eq_nil in Hall. destruct Hall as [Hs Hf].
        split; [apply Hr; auto | exact Hf].
  - exact (IH acc).
Qed.

(** X11: uploading source workbooks keeps the mapping configuration and
    the lookup tables; when some sheet is read, each name then finds the
    last sheet read whose name, stripped, equals it (sheets after a failing
    sheet in its workbook are not read); when none is, the source data
    stays as it was. *)
Theorem upload_source_files_lookup m files k :
  mapping_config (upload_source_files m files) = mapping_config m /\
  lookup_tables (upload_source_files m files) = lookup_tables m /\
  find_table (source_data (upload_source_files m files)) k =
  match all_sheets_read files with
  | [] => find_table (source_data m) k
  | _ => last_sheet (all_sheets_read files) k
  end.
Proof.
  destruct (read_workbooks_aux files []) as [Hl Hn].
  assert (Hl' : forall k', find_table (read_workbooks files) k' =
                           match last_sheet (all_sheets_read files) k' with
                           | Some t => Some t
                           | None => None
                           end) by (intros k'; apply Hl).
  assert (Hn' : read_workbooks files = [] <-> all_sheets_read files = []).
  { split; intros H; [apply Hn in H; tauto | apply Hn; auto]. }
  unfold upload_source_files.
  destruct (read_workbooks files) as [|p l] eqn:E.
  - destruct Hn' as [Hn1 _]. rewrite (Hn1 eq_refl). auto.
  - cbv beta iota. cbn [mapping_config lookup_tables source_data].
    split; [reflexivity|]. split; [reflexivity|]. rewrite Hl'.
    destruct (all_sheets_read files) eqn:E2.
    + exfalso. destruct Hn' as [_ Hn2]. specialize (Hn2 eq_refl). congruence.
    + destruct (last_sheet _ k); reflexivity.
Qed.
